(** * libavcodec/v4l2_device.c: probing video nodes and resolving their media controller

    A shallow embedding of [ff_v4l2_device_probe_video] and
    [ff_v4l2_device_retrieve_media] together with the static helpers they
    call.  The C functions talk to the operating system (open, ioctl, fstat,
    opendir/readdir/closedir, close) and to the heap (av_mallocz, av_freep);
    here every such call is a transformer of an explicit [World] that holds
    the descriptor table of the process, [errno], the outcome of the coming
    allocations and the chronological list of calls made.  Messages sent to
    [av_log] are diagnostics only and are left out. *)

From stdpp Require Import gmap strings list fin_maps.

Local Open Scope Z_scope.

(** ** What the platform headers provide

    [AVERROR] comes from libavutil/error.h, the [errno] values from
    <errno.h>, [PATH_MAX] from <limits.h>, [major]/[minor] from
    <sys/sysmacros.h> and [MEDIA_INTF_T_V4L_VIDEO] from <linux/media.h>.
    None of them is defined by the two files under study, so the development
    is parametric in them; [linux_platform] below is the usual instance. *)
Class Platform := {
  AVERROR : Z → Z;
  AVERROR_neg : ∀ e : positive, AVERROR (Z.pos e) < 0;
  EINVAL : positive;
  ENOMEM : positive;
  EBADF : positive;
  ENOSPC : positive;
  PATH_MAX : nat;
  major : Z → Z;
  minor : Z → Z;
  MEDIA_INTF_T_V4L_VIDEO : Z;
}.

(** glibc's [gnu_dev_major] and [gnu_dev_minor] on a 64-bit [dev_t]. *)
Definition gnu_dev_major (dev : Z) : Z :=
  Z.lor (Z.land (Z.shiftr dev 8) 0xfff)
        (Z.land (Z.shiftr dev 32) (Z.land (Z.lnot 0xfff) 0xffffffff)).

Definition gnu_dev_minor (dev : Z) : Z :=
  Z.lor (Z.land dev 0xff)
        (Z.land (Z.shiftr dev 12) (Z.land (Z.lnot 0xff) 0xffffffff)).

Definition gnu_dev_makedev (maj min : Z) : Z :=
  Z.lor (Z.lor (Z.shiftl (Z.land maj 0xfff) 8)
               (Z.shiftl (Z.land maj (Z.land (Z.lnot 0xfff) 0xffffffff)) 32))
        (Z.lor (Z.land min 0xff)
               (Z.shiftl (Z.land min (Z.land (Z.lnot 0xff) 0xffffffff)) 12)).

Lemma opp_pos_neg (e : positive) : - Z.pos e < 0.
Proof. lia. Qed.

#[global] Instance linux_platform : Platform := {|
  AVERROR := Z.opp;
  AVERROR_neg := opp_pos_neg;
  EINVAL := 22;
  ENOMEM := 12;
  EBADF := 9;
  ENOSPC := 28;
  PATH_MAX := 4096;
  major := gnu_dev_major;
  minor := gnu_dev_minor;
  MEDIA_INTF_T_V4L_VIDEO := 0x200;
|}.

(** ** Data model *)

(** [struct v4l2_capability], filled by VIDIOC_QUERYCAP. *)
Record v4l2_capability := {
  cap_driver : string;
  cap_card : string;
  cap_bus_info : string;
  cap_version : Z;
  cap_capabilities : Z;
  cap_device_caps : Z;
}.

(** [struct media_device_info], filled by MEDIA_IOC_DEVICE_INFO. *)
Record media_device_info := {
  mdi_driver : string;
  mdi_model : string;
  mdi_serial : string;
  mdi_bus_info : string;
  mdi_media_version : Z;
  mdi_hw_revision : Z;
  mdi_driver_version : Z;
}.

(** [struct media_v2_interface]; [devnode_major] and [devnode_minor] are the
    members [devnode.major] and [devnode.minor] of its union. *)
Record media_v2_interface := {
  intf_id : Z;
  intf_type : Z;
  intf_flags : Z;
  devnode_major : Z;
  devnode_minor : Z;
}.

(** The part of [struct media_v2_topology] the code reads and writes.  The
    buffer [ptr_interfaces] points to is carried by value; [None] is the
    null pointer. *)
Record media_v2_topology := {
  num_interfaces : Z;
  ptr_interfaces : option (list media_v2_interface);
}.

(** [struct stat], reduced to its two device numbers. *)
Record stat := {
  st_dev : Z;
  st_rdev : Z;
}.

(** [struct V4L2DeviceVideo] of v4l2_device.h. *)
Record V4L2DeviceVideo := {
  video_devname : string;
  video_fd : Z;
  video_capability : v4l2_capability;
}.

(** [struct V4L2DeviceMedia] of v4l2_device.h. *)
Record V4L2DeviceMedia := {
  media_devname : string;
  media_fd : Z;
  media_info : media_device_info;
}.

(** The result of [memset (p, 0, sizeof *p)] on each record. *)
Definition zero_capability : v4l2_capability :=
  {| cap_driver := ""; cap_card := ""; cap_bus_info := "";
     cap_version := 0; cap_capabilities := 0; cap_device_caps := 0 |}.

Definition zero_info : media_device_info :=
  {| mdi_driver := ""; mdi_model := ""; mdi_serial := ""; mdi_bus_info := "";
     mdi_media_version := 0; mdi_hw_revision := 0; mdi_driver_version := 0 |}.

Definition zero_interface : media_v2_interface :=
  {| intf_id := 0; intf_type := 0; intf_flags := 0;
     devnode_major := 0; devnode_minor := 0 |}.

Definition zero_stat : stat := {| st_dev := 0; st_rdev := 0 |}.

#[global] Instance v4l2_capability_eq_dec : EqDecision v4l2_capability.
Proof. solve_decision. Defined.
#[global] Instance media_device_info_eq_dec : EqDecision media_device_info.
Proof. solve_decision. Defined.
#[global] Instance media_v2_interface_eq_dec : EqDecision media_v2_interface.
Proof. solve_decision. Defined.
#[global] Instance V4L2DeviceVideo_eq_dec : EqDecision V4L2DeviceVideo.
Proof. solve_decision. Defined.
#[global] Instance V4L2DeviceMedia_eq_dec : EqDecision V4L2DeviceMedia.
Proof. solve_decision. Defined.

(** ** The operating system *)

(** How one device node answers.  Every query either fails with an [errno]
    value (always positive, hence [positive]) or delivers its record.  The
    interface graph may change between the two MEDIA_IOC_G_TOPOLOGY calls
    the code makes, so the graph seen without a buffer and the graph seen
    with one are separate fields. *)
Record DevNode := {
  nd_open : option positive;
  nd_stat : positive + stat;
  nd_querycap : positive + v4l2_capability;
  nd_device_info : positive + media_device_info;
  nd_topology_count : positive + list media_v2_interface;
  nd_topology_fill : positive + list media_v2_interface;
}.

(** The device tree: the outcome of [opendir ("/dev")] (an [errno] or the
    names [readdir] delivers, in the order it delivers them) and the node
    found under each path. *)
Record OS := {
  os_dev : positive + list string;
  os_node : string → DevNode;
}.

(** Calls observed from outside the process, oldest first. *)
Inductive Event :=
| EvOpendir (ret : option N)
| EvReaddir (entry : option string)
| EvClosedir (dirfd : N)
| EvOpen (path : string) (nonblock : bool) (ret : Z)
| EvQuerycap (fd : Z) (ret : Z)
| EvDeviceInfo (fd : Z) (ret : Z)
| EvTopology (fd : Z) (with_buffer : bool) (ret : Z)
| EvFstat (fd : Z) (ret : Z)
| EvAlloc (nmemb : Z) (ok : bool)
| EvFree
| EvClose (fd : Z) (ret : Z).

#[global] Instance Event_eq_dec : EqDecision Event.
Proof. solve_decision. Defined.

(** The state the calls act on.  [w_fds] maps each open descriptor to the
    path it was opened on; [w_alloc] lists the outcomes of the coming heap
    allocations ([true]: memory is returned), an exhausted list meaning
    success. *)
Record World := {
  w_fds : gmap N string;
  w_errno : Z;
  w_alloc : list bool;
  w_trace : list Event;
}.

Definition emit (e : Event) (w : World) : World :=
  {| w_fds := w_fds w; w_errno := w_errno w; w_alloc := w_alloc w;
     w_trace := w_trace w ++ [e] |}.

Definition set_errno (e : positive) (w : World) : World :=
  {| w_fds := w_fds w; w_errno := Z.pos e; w_alloc := w_alloc w;
     w_trace := w_trace w |}.

Definition set_fds (m : gmap N string) (w : World) : World :=
  {| w_fds := m; w_errno := w_errno w; w_alloc := w_alloc w;
     w_trace := w_trace w |}.

(** POSIX hands out the lowest descriptor number that is not open. *)
Fixpoint first_free (fuel : nat) (n : N) (m : gmap N string) : N :=
  match fuel with
  | O => n
  | S k => match m !! n with
           | Some _ => first_free k (N.succ n) m
           | None => n
           end
  end.

Definition lowest_fd (m : gmap N string) : N := first_free (size m) 0%N m.

(** The node behind a descriptor number, if that number is open. *)
Definition fd_node (os : OS) (fd : Z) (w : World) : option DevNode :=
  if decide (0 ≤ fd) then os_node os <$> w_fds w !! Z.to_N fd else None.

(** How one turn of a [for] loop ends. *)
Inductive control (A : Type) :=
| Continue (a : A)
| Break (a : A).
Arguments Continue {A} a.
Arguments Break {A} a.

(** ** System and library calls *)

Section Device.
Context `{Platform}.
Variable os : OS.

(** [open (path, O_RDWR [| O_NONBLOCK], 0)]. *)
Definition sys_open (path : string) (nonblock : bool) (w : World) : Z * World :=
  match nd_open (os_node os path) with
  | Some e => (-1, emit (EvOpen path nonblock (-1)) (set_errno e w))
  | None =>
      let fd := lowest_fd (w_fds w) in
      (Z.of_N fd,
       emit (EvOpen path nonblock (Z.of_N fd))
            (set_fds (<[fd := path]> (w_fds w)) w))
  end.

(** [close (fd)]: a number that is not an open descriptor is refused with
    EBADF and nothing is closed. *)
Definition sys_close (fd : Z) (w : World) : Z * World :=
  match fd_node os fd w with
  | Some _ =>
      (0, emit (EvClose fd 0) (set_fds (delete (Z.to_N fd) (w_fds w)) w))
  | None => (-1, emit (EvClose fd (-1)) (set_errno EBADF w))
  end.

(** [ioctl (fd, VIDIOC_QUERYCAP, cap)]. *)
Definition ioctl_querycap (fd : Z) (cap : v4l2_capability) (w : World)
  : Z * v4l2_capability * World :=
  match fd_node os fd w with
  | None => (-1, cap, emit (EvQuerycap fd (-1)) (set_errno EBADF w))
  | Some nd =>
      match nd_querycap nd with
      | inl e => (-1, cap, emit (EvQuerycap fd (-1)) (set_errno e w))
      | inr c => (0, c, emit (EvQuerycap fd 0) w)
      end
  end.

(** [ioctl (fd, MEDIA_IOC_DEVICE_INFO, info)]. *)
Definition ioctl_device_info (fd : Z) (info : media_device_info) (w : World)
  : Z * media_device_info * World :=
  match fd_node os fd w with
  | None => (-1, info, emit (EvDeviceInfo fd (-1)) (set_errno EBADF w))
  | Some nd =>
      match nd_device_info nd with
      | inl e => (-1, info, emit (EvDeviceInfo fd (-1)) (set_errno e w))
      | inr i => (0, i, emit (EvDeviceInfo fd 0) w)
      end
  end.

(** [ioctl (fd, MEDIA_IOC_G_TOPOLOGY, topology)].  Without a buffer the
    kernel only reports how many interfaces the graph has.  With a buffer it
    copies the records out and reports their number, and refuses with ENOSPC
    a graph that has more records than [num_interfaces] announced. *)
Definition ioctl_g_topology (fd : Z) (topology : media_v2_topology) (w : World)
  : Z * media_v2_topology * World :=
  let with_buffer := bool_decide (is_Some (ptr_interfaces topology)) in
  let fail e :=
    (-1, topology, emit (EvTopology fd with_buffer (-1)) (set_errno e w)) in
  match fd_node os fd w with
  | None => fail EBADF
  | Some nd =>
      match ptr_interfaces topology with
      | None =>
          match nd_topology_count nd with
          | inl e => fail e
          | inr graph =>
              (0, {| num_interfaces := Z.of_nat (length graph);
                     ptr_interfaces := None |},
               emit (EvTopology fd with_buffer 0) w)
          end
      | Some buf =>
          match nd_topology_fill nd with
          | inl e => fail e
          | inr graph =>
              if num_interfaces topology <? Z.of_nat (length graph)
              then fail ENOSPC
              else
                (0, {| num_interfaces := Z.of_nat (length graph);
                       ptr_interfaces :=
                         Some (graph ++ drop (length graph) buf) |},
                 emit (EvTopology fd with_buffer 0) w)
          end
      end
  end.

(** [fstat (fd, statbuf)]. *)
Definition sys_fstat (fd : Z) (statbuf : stat) (w : World)
  : Z * stat * World :=
  match fd_node os fd w with
  | None => (-1, statbuf, emit (EvFstat fd (-1)) (set_errno EBADF w))
  | Some nd =>
      match nd_stat nd with
      | inl e => (-1, statbuf, emit (EvFstat fd (-1)) (set_errno e w))
      | inr s => (0, s, emit (EvFstat fd 0) w)
      end
  end.

(** A [DIR] stream: the descriptor it holds and the entries not read yet. *)
Record DIR := {
  dd_fd : N;
  dd_entries : list string;
}.

(** [opendir ("/dev")]; [None] is the null pointer. *)
Definition sys_opendir (w : World) : option DIR * World :=
  match os_dev os with
  | inl e => (None, emit (EvOpendir None) (set_errno e w))
  | inr entries =>
      let fd := lowest_fd (w_fds w) in
      (Some {| dd_fd := fd; dd_entries := entries |},
       emit (EvOpendir (Some fd)) (set_fds (<[fd := "/dev"]> (w_fds w)) w))
  end.

(** [closedir (dirp)]. *)
Definition sys_closedir (dirp : DIR) (w : World) : World :=
  emit (EvClosedir (dd_fd dirp)) (set_fds (delete (dd_fd dirp) (w_fds w)) w).

(** [av_mallocz (nmemb * sizeof (struct media_v2_interface))]: a zeroed
    array of [nmemb] records, or the null pointer. *)
Definition av_mallocz_interfaces (nmemb : Z) (w : World)
  : option (list media_v2_interface) * World :=
  let ok := match w_alloc w with [] => true | b :: _ => b end in
  let w' := {| w_fds := w_fds w; w_errno := w_errno w;
               w_alloc := tail (w_alloc w);
               w_trace := w_trace w ++ [EvAlloc nmemb ok] |} in
  (if ok then Some (replicate (Z.to_nat nmemb) zero_interface) else None, w').

(** [av_freep (&interfaces)]. *)
Definition av_freep (w : World) : World := emit EvFree w.

(** [strncmp (s1, s2, n)] on NUL-terminated strings. *)
Fixpoint strncmp (s1 s2 : string) (n : nat) : Z :=
  match n with
  | O => 0
  | S n' =>
      match s1, s2 with
      | EmptyString, EmptyString => 0
      | EmptyString, String c2 _ => - Z.of_N (Ascii.N_of_ascii c2)
      | String c1 _, EmptyString => Z.of_N (Ascii.N_of_ascii c1)
      | String c1 r1, String c2 r2 =>
          if Ascii.eqb c1 c2
          then if Ascii.eqb c1 Ascii.zero then 0 else strncmp r1 r2 n'
          else Z.of_N (Ascii.N_of_ascii c1) - Z.of_N (Ascii.N_of_ascii c2)
      end
  end.

(** [snprintf (buf, size, "/dev/%s", d_name)]: at most [size - 1] characters
    are stored. *)
Definition snprintf_dev (size : nat) (d_name : string) : string :=
  String.substring 0 (size - 1) ("/dev/" +:+ d_name).

(** ** v4l2_device.c *)

Definition v4l2_device_open_video (devname : string) (cap : v4l2_capability)
  (w : World) : Z * v4l2_capability * World :=
  let '(fd, w) := sys_open devname true w in
  if fd <? 0 then (AVERROR (w_errno w), cap, w)
  else
    let cap := zero_capability in
    let '(ret, cap, w) := ioctl_querycap fd cap w in
    if ret <? 0 then
      let ret := w_errno w in
      let '(_, w) := sys_close fd w in
      (AVERROR ret, cap, w)
    else (fd, cap, w).

(** The locals of [ff_v4l2_device_probe_video] that live across turns. *)
Record probe_locals := {
  pl_ret : Z;
  pl_tmpdev : V4L2DeviceVideo;
}.

(** The callback [checkdev (&tmpdev, opaque)] is a decision on the candidate
    record; [opaque] is whatever the closure holds. *)
Definition probe_video_body (checkdev : V4L2DeviceVideo → bool)
  (d_name : string) (l : probe_locals) (w : World)
  : control probe_locals * World :=
  if negb (strncmp d_name "video" 5 =? 0) then (Continue l, w)
  else
    let devname := snprintf_dev PATH_MAX d_name in
    let '(ret, cap, w) :=
      v4l2_device_open_video devname (video_capability (pl_tmpdev l)) w in
    if ret <? 0 then
      (Continue {| pl_ret := ret;
                   pl_tmpdev := {| video_devname := devname;
                                   video_fd := video_fd (pl_tmpdev l);
                                   video_capability := cap |} |}, w)
    else
      let tmpdev := {| video_devname := devname; video_fd := ret;
                       video_capability := cap |} in
      if checkdev tmpdev then (Break {| pl_ret := ret; pl_tmpdev := tmpdev |}, w)
      else
        let '(_, w) := sys_close (video_fd tmpdev) w in
        (Continue {| pl_ret := AVERROR (Z.pos EINVAL); pl_tmpdev := tmpdev |}, w).

(** [for (entry = readdir (dirp); entry; entry = readdir (dirp))]. *)
Fixpoint probe_video_loop (checkdev : V4L2DeviceVideo → bool)
  (entries : list string) (l : probe_locals) (w : World)
  : probe_locals * World :=
  match entries with
  | [] => (l, emit (EvReaddir None) w)
  | d_name :: rest =>
      match probe_video_body checkdev d_name l
              (emit (EvReaddir (Some d_name)) w) with
      | (Break l', w') => (l', w')
      | (Continue l', w') => probe_video_loop checkdev rest l' w'
      end
  end.

(** [device] is the record the caller's pointer designates; the result
    carries what it holds when the call returns. *)
Definition ff_v4l2_device_probe_video (device : V4L2DeviceVideo)
  (checkdev : V4L2DeviceVideo → bool) (w : World)
  : Z * V4L2DeviceVideo * World :=
  let ret := AVERROR (Z.pos EINVAL) in
  let tmpdev := {| video_devname := ""; video_fd := 0;
                   video_capability := zero_capability |} in
  match sys_opendir w with
  | (None, w) => (AVERROR (w_errno w), device, w)
  | (Some dirp, w) =>
      let '(l, w) :=
        probe_video_loop checkdev (dd_entries dirp)
          {| pl_ret := ret; pl_tmpdev := tmpdev |} w in
      let w := sys_closedir dirp w in
      if pl_ret l <? 0 then (pl_ret l, device, w)
      else (0, pl_tmpdev l, w)
  end.

Definition v4l2_device_open_media (devname : string) (info : media_device_info)
  (w : World) : Z * media_device_info * World :=
  let '(fd, w) := sys_open devname false w in
  if fd <? 0 then (AVERROR (w_errno w), info, w)
  else
    let info := zero_info in
    let '(ret, info, w) := ioctl_device_info fd info w in
    if ret <? 0 then
      let ret := w_errno w in
      let '(_, w) := sys_close fd w in
      (AVERROR ret, info, w)
    else (fd, info, w).

(** The scan [for (int i = 0; i < topology.num_interfaces; i++)] over the
    records the loop visits; [ret] is kept when no record matches. *)
Fixpoint scan_interfaces (interfaces : list media_v2_interface)
  (video_major video_minor : Z) (ret : Z) : Z :=
  match interfaces with
  | [] => ret
  | i :: rest =>
      if negb (intf_type i =? MEDIA_INTF_T_V4L_VIDEO)
      then scan_interfaces rest video_major video_minor ret
      else if (devnode_major i =? video_major) && (devnode_minor i =? video_minor)
      then 0
      else scan_interfaces rest video_major video_minor ret
  end.

Definition v4l2_device_check_media (media_fd : Z) (video_major video_minor : Z)
  (w : World) : Z * World :=
  let topology := {| num_interfaces := 0; ptr_interfaces := None |} in
  let '(ret, topology, w) := ioctl_g_topology media_fd topology w in
  if ret <? 0 then (AVERROR (w_errno w), w)
  else if num_interfaces topology <=? 0 then (AVERROR (Z.pos EINVAL), w)
  else
    let '(interfaces, w) := av_mallocz_interfaces (num_interfaces topology) w in
    match interfaces with
    | None => (AVERROR (Z.pos ENOMEM), w)
    | Some buf =>
        let topology := {| num_interfaces := num_interfaces topology;
                           ptr_interfaces := Some buf |} in
        let '(ret, topology, w) := ioctl_g_topology media_fd topology w in
        if ret <? 0 then
          let w := av_freep w in
          (AVERROR (w_errno w), w)
        else
          let ret := AVERROR (Z.pos EINVAL) in
          let visited :=
            take (Z.to_nat (num_interfaces topology))
                 (default [] (ptr_interfaces topology)) in
          let ret := scan_interfaces visited video_major video_minor ret in
          let w := av_freep w in
          (ret, w)
    end.

(** The locals of [ff_v4l2_device_retrieve_media] that live across turns. *)
Record media_locals := {
  ml_fd : Z;
  ml_ret : Z;
  ml_devname : string;
  ml_info : media_device_info;
}.

Definition retrieve_media_body (statbuf : stat) (d_name : string)
  (l : media_locals) (w : World) : control media_locals * World :=
  if negb (strncmp d_name "media" 5 =? 0) then (Continue l, w)
  else
    let devname := snprintf_dev PATH_MAX d_name in
    let '(ret, info, w) := v4l2_device_open_media devname (ml_info l) w in
    if ret <? 0 then
      (Continue {| ml_fd := ml_fd l; ml_ret := ret; ml_devname := devname;
                   ml_info := info |}, w)
    else
      let fd := ret in
      let '(ret, w) :=
        v4l2_device_check_media fd (major (st_rdev statbuf))
          (minor (st_rdev statbuf)) w in
      let l' := {| ml_fd := fd; ml_ret := ret; ml_devname := devname;
                   ml_info := info |} in
      if ret =? 0 then (Break l', w)
      else
        let '(_, w) := sys_close ret w in
        (Continue l', w).

Fixpoint retrieve_media_loop (statbuf : stat) (entries : list string)
  (l : media_locals) (w : World) : media_locals * World :=
  match entries with
  | [] => (l, emit (EvReaddir None) w)
  | d_name :: rest =>
      match retrieve_media_body statbuf d_name l
              (emit (EvReaddir (Some d_name)) w) with
      | (Break l', w') => (l', w')
      | (Continue l', w') => retrieve_media_loop statbuf rest l' w'
      end
  end.

(** [fd] and [info] are not initialised by the C code; they are written
    before they are read on every path, and start here from zero. *)
Definition ff_v4l2_device_retrieve_media (video_device : V4L2DeviceVideo)
  (media_device : V4L2DeviceMedia) (w : World)
  : Z * V4L2DeviceMedia * World :=
  let statbuf := zero_stat in
  let '(ret, statbuf, w) := sys_fstat (video_fd video_device) statbuf w in
  if ret <? 0 then (AVERROR (w_errno w), media_device, w)
  else
    match sys_opendir w with
    | (None, w) => (AVERROR (w_errno w), media_device, w)
    | (Some dirp, w) =>
        let '(l, w) :=
          retrieve_media_loop statbuf (dd_entries dirp)
            {| ml_fd := 0; ml_ret := AVERROR (Z.pos EINVAL);
               ml_devname := ""; ml_info := zero_info |} w in
        let w := sys_closedir dirp w in
        if ml_ret l <? 0 then (ml_ret l, media_device, w)
        else
          (0, {| media_devname := ml_devname l; media_fd := ml_fd l;
                 media_info := ml_info l |}, w)
    end.

End Device.

(** * Vocabulary of the statements

    Nothing below is executed by the C code: these definitions name, from
    the answers of the device tree alone, what the statements talk about. *)

Section Vocabulary.
Context `{Platform}.
Variable os : OS.

(** The entries delivered by the [readdir] calls of a list of events. *)
Definition readdir_entries (t : list Event) : list (option string) :=
  omap (λ e, match e with EvReaddir x => Some x | _ => None end) t.

(** What stands behind a directory entry for the prober, when the
    descriptor table is [m] at the time the entry is tried. *)
Inductive probe_outcome :=
| NotVideo
| VideoOpenFailed (e : positive)
| VideoQueryFailed (e : positive)
| VideoOpened (h : V4L2DeviceVideo).

Definition probe_candidate (m : gmap N string) (d_name : string)
  : probe_outcome :=
  if negb (strncmp d_name "video" 5 =? 0) then NotVideo
  else
    let path := snprintf_dev PATH_MAX d_name in
    match nd_open (os_node os path) with
    | Some e => VideoOpenFailed e
    | None =>
        match nd_querycap (os_node os path) with
        | inl e => VideoQueryFailed e
        | inr c =>
            VideoOpened {| video_devname := path;
                           video_fd := Z.of_N (lowest_fd m);
                           video_capability := c |}
        end
    end.

(** The candidate opens, answers the capability query, and the predicate
    says yes to its record. *)
Definition accepted (checkdev : V4L2DeviceVideo → bool) (m : gmap N string)
  (d_name : string) : bool :=
  match probe_candidate m d_name with
  | VideoOpened h => checkdev h
  | _ => false
  end.

(** The error an unsuccessful turn on the entry leaves behind; [None] for
    an entry the prober passes over. *)
Definition probe_failure (m : gmap N string) (d_name : string) : option Z :=
  match probe_candidate m d_name with
  | NotVideo => None
  | VideoOpenFailed e | VideoQueryFailed e => Some (AVERROR (Z.pos e))
  | VideoOpened _ => Some (AVERROR (Z.pos EINVAL))
  end.

(** The code named NoSuitableDevice: the one [ret] starts from and is set
    back to after the predicate said no. *)
Definition NoSuitableDevice : Z := AVERROR (Z.pos EINVAL).

(** The first candidate, in the order of the directory, that opens, answers
    the capability query and is accepted by the predicate. *)
Fixpoint first_accepted (checkdev : V4L2DeviceVideo → bool)
  (m : gmap N string) (entries : list string) : option V4L2DeviceVideo :=
  match entries with
  | [] => None
  | d_name :: rest =>
      match probe_candidate m d_name with
      | VideoOpened h =>
          if checkdev h then Some h else first_accepted checkdev m rest
      | _ => first_accepted checkdev m rest
      end
  end.

(** A record of the interface graph that designates the device [vmaj:vmin]
    as a V4L video node. *)
Definition designates (vmaj vmin : Z) (i : media_v2_interface) : Prop :=
  intf_type i = MEDIA_INTF_T_V4L_VIDEO ∧
  devnode_major i = vmaj ∧ devnode_minor i = vmin.

(** What stands behind a directory entry for the resolver. *)
Inductive media_outcome :=
| NotMedia
| MediaOpenFailed (e : positive)
| MediaQueryFailed (e : positive)
| MediaOpened (info : media_device_info).

Definition media_candidate (d_name : string) : media_outcome :=
  if negb (strncmp d_name "media" 5 =? 0) then NotMedia
  else
    let path := snprintf_dev PATH_MAX d_name in
    match nd_open (os_node os path) with
    | Some e => MediaOpenFailed e
    | None =>
        match nd_device_info (os_node os path) with
        | inl e => MediaQueryFailed e
        | inr i => MediaOpened i
        end
    end.

(** The node under [path] is a media controller that opens, answers the
    info query with [info], reports a non-empty interface graph and, when
    the graph is fetched, delivers a record designating [vmaj:vmin]. *)
Definition controls (vmaj vmin : Z) (path : string) (info : media_device_info)
  : Prop :=
  nd_open (os_node os path) = None ∧
  nd_device_info (os_node os path) = inr info ∧
  ∃ g1 g2,
    nd_topology_count (os_node os path) = inr g1 ∧ g1 ≠ [] ∧
    nd_topology_fill (os_node os path) = inr g2 ∧
    ∃ i, i ∈ g2 ∧ designates vmaj vmin i.

(** The descriptor table while a directory is enumerated: the table the
    call found, plus the stream on "/dev". *)
Definition enumeration_fds (w : World) : gmap N string :=
  <[lowest_fd (w_fds w) := "/dev"]> (w_fds w).

(** The outcome of the next allocation. *)
Definition next_alloc (w : World) : bool :=
  match w_alloc w with [] => true | b :: _ => b end.

End Vocabulary.

(** ** Vocabulary for the calls as a whole *)

(** The paths of the [open] calls in a list of events, each with its
    O_NONBLOCK flag. *)
Definition opened_paths (t : list Event) : list (string * bool) :=
  omap (λ e, match e with EvOpen p nb _ => Some (p, nb) | _ => None end) t.

(** Buffers handed out by [av_mallocz] and not yet given back by
    [av_freep], over a list of events. *)
Fixpoint heap_balance (t : list Event) : Z :=
  match t with
  | [] => 0
  | EvAlloc _ true :: t' => 1 + heap_balance t'
  | EvFree :: t' => heap_balance t' - 1
  | _ :: t' => heap_balance t'
  end.

(** The bytes a C string constant may hold: no NUL inside. *)
Fixpoint no_nul (s : string) : Prop :=
  match s with
  | EmptyString => True
  | String c s' => c ≠ Ascii.zero ∧ no_nul s'
  end.

Section Controllers.
Context `{Platform}.
Variable os : OS.

(** [designates], as a test. *)
Definition designates_b (vmaj vmin : Z) (i : media_v2_interface) : bool :=
  (intf_type i =? MEDIA_INTF_T_V4L_VIDEO) &&
  ((devnode_major i =? vmaj) && (devnode_minor i =? vmin)).

(** The node under [path] reports a non-empty graph, the graph it then
    delivers fits the buffer sized from that report, and one of its records
    designates [vmaj:vmin]. *)
Definition passes_check (vmaj vmin : Z) (path : string) : bool :=
  match nd_topology_count (os_node os path),
        nd_topology_fill (os_node os path) with
  | inr g1, inr g2 =>
      negb (bool_decide (g1 = [])) &&
      (bool_decide (length g2 ≤ length g1)%nat &&
       existsb (designates_b vmaj vmin) g2)
  | _, _ => false
  end.

(** The path and the info record of the controller behind a directory
    entry, when that entry is a media controller of [vmaj:vmin]. *)
Definition controller_of (vmaj vmin : Z) (d_name : string)
  : option (string * media_device_info) :=
  match media_candidate os d_name with
  | MediaOpened info =>
      if passes_check vmaj vmin (snprintf_dev PATH_MAX d_name)
      then Some (snprintf_dev PATH_MAX d_name, info)
      else None
  | _ => None
  end.

(** The first controller of [vmaj:vmin], in the order of the directory. *)
Fixpoint first_controller (vmaj vmin : Z) (entries : list string)
  : option (string * media_device_info) :=
  match entries with
  | [] => None
  | d_name :: rest =>
      match controller_of vmaj vmin d_name with
      | Some c => Some c
      | None => first_controller vmaj vmin rest
      end
  end.

End Controllers.

(** * A device tree to run the code on

    One /dev directory with three video nodes, a name that only looks like
    one, and two media controllers: the graph of /dev/media0 has three
    interfaces, none for the device 81:0; the graph of /dev/media1 has two,
    one of them the V4L video interface of 81:0. *)

Module Example.

Definition ENOENT : positive := 2.
Definition ENOTTY : positive := 25.

(** A path with no node behind it. *)
Definition absent : DevNode :=
  {| nd_open := Some ENOENT; nd_stat := inl ENOENT;
     nd_querycap := inl ENOENT; nd_device_info := inl ENOENT;
     nd_topology_count := inl ENOENT; nd_topology_fill := inl ENOENT |}.

Definition uvc : v4l2_capability :=
  {| cap_driver := "uvcvideo"; cap_card := "camera"; cap_bus_info := "usb-1";
     cap_version := 0x60100; cap_capabilities := 0x84a00001;
     cap_device_caps := 0x04200001 |}.

Definition video_node (maj min : Z) : DevNode :=
  {| nd_open := None;
     nd_stat := inr {| st_dev := 6; st_rdev := gnu_dev_makedev maj min |};
     nd_querycap := inr uvc; nd_device_info := inl ENOTTY;
     nd_topology_count := inl ENOTTY; nd_topology_fill := inl ENOTTY |}.

Definition controller : media_device_info :=
  {| mdi_driver := "cedrus"; mdi_model := "cedrus"; mdi_serial := "";
     mdi_bus_info := "platform:cedrus"; mdi_media_version := 0x60100;
     mdi_hw_revision := 0; mdi_driver_version := 0x60100 |}.

Definition media_node (graph : list media_v2_interface) : DevNode :=
  {| nd_open := None;
     nd_stat := inr {| st_dev := 6; st_rdev := gnu_dev_makedev 250 0 |};
     nd_querycap := inl ENOTTY; nd_device_info := inr controller;
     nd_topology_count := inr graph; nd_topology_fill := inr graph |}.

Definition v4l_video (id maj min : Z) : media_v2_interface :=
  {| intf_id := id; intf_type := 0x200; intf_flags := 0;
     devnode_major := maj; devnode_minor := min |}.

Definition v4l_subdev (id maj min : Z) : media_v2_interface :=
  {| intf_id := id; intf_type := 0x203; intf_flags := 0;
     devnode_major := maj; devnode_minor := min |}.

Definition nodes (path : string) : DevNode :=
  if decide (path = "/dev/video0") then video_node 81 0
  else if decide (path = "/dev/video1") then video_node 81 1
  else if decide (path = "/dev/video2") then video_node 81 2
  else if decide (path = "/dev/media0")
       then media_node [v4l_video 1 81 5; v4l_video 2 81 6; v4l_subdev 3 81 0]
  else if decide (path = "/dev/media1")
       then media_node [v4l_subdev 1 81 9; v4l_video 2 81 0]
  else if decide (path = "/dev/media2") then media_node []
  else absent.

Definition dev (listing : positive + list string) : OS :=
  {| os_dev := listing; os_node := nodes |}.

(** Standard input, output and error are open when a call starts. *)
Definition stdio : gmap N string :=
  <[2%N := "/dev/tty"]> (<[1%N := "/dev/tty"]> (<[0%N := "/dev/tty"]> ∅)).

Definition start (alloc : list bool) : World :=
  {| w_fds := stdio; w_errno := 0; w_alloc := alloc; w_trace := [] |}.

(** The world of a caller that holds /dev/video0 on descriptor 3. *)
Definition holding_video0 (alloc : list bool) : World :=
  {| w_fds := <[3%N := "/dev/video0"]> stdio; w_errno := 0;
     w_alloc := alloc; w_trace := [] |}.

Definition video0 : V4L2DeviceVideo :=
  {| video_devname := "/dev/video0"; video_fd := 3; video_capability := uvc |}.

(** What the caller's output records hold before the call. *)
Definition stale_video : V4L2DeviceVideo :=
  {| video_devname := "stale"; video_fd := -1;
     video_capability := zero_capability |}.

Definition stale_media : V4L2DeviceMedia :=
  {| media_devname := "stale"; media_fd := -1; media_info := zero_info |}.

(** A predicate that wants /dev/video1, and one that wants nothing. *)
Definition wants_video1 (d : V4L2DeviceVideo) : bool :=
  bool_decide (video_devname d = "/dev/video1").

Definition wants_none (d : V4L2DeviceVideo) : bool := false.

End Example.

(** * Properties *)

(** ** Descriptor allocation *)

Lemma first_free_fresh (m m' : gmap N string) (fuel : nat) (n : N) :
  (size m' ≤ fuel)%nat →
  (∀ k, (n ≤ k)%N → is_Some (m !! k) → is_Some (m' !! k)) →
  m !! first_free fuel n m = None.
Proof.
  revert m' n. induction fuel as [|fuel IH]; intros m' n Hsize Hcover; simpl.
  - destruct (m !! n) eqn:Hn; [|done].
    destruct (Hcover n) as [x Hx]; [lia|eauto|].
    assert (m' = ∅) as -> by (apply map_size_empty_inv; lia).
    by rewrite lookup_empty in Hx.
  - destruct (m !! n) eqn:Hn; [|done].
    apply (IH (delete n m')).
    + rewrite map_size_delete_Some; [lia|].
      apply Hcover; [lia|eauto].
    + intros k Hk Hsome. rewrite lookup_delete_ne by lia.
      apply Hcover; [lia|done].
Qed.

Lemma lowest_fd_fresh (m : gmap N string) : m !! lowest_fd m = None.
Proof. apply (first_free_fresh m m); [done|auto]. Qed.

Lemma first_free_least (m : gmap N string) (fuel : nat) (n k : N) :
  (n ≤ k < first_free fuel n m)%N → is_Some (m !! k).
Proof.
  revert n. induction fuel as [|fuel IH]; intros n; simpl; [lia|].
  destruct (m !! n) eqn:Hn; [|lia].
  intros Hk. destruct (decide (k = n)) as [->|Hne]; [eauto|].
  apply (IH (N.succ n)). lia.
Qed.

Lemma lowest_fd_least (m : gmap N string) (k : N) :
  (k < lowest_fd m)%N → is_Some (m !! k).
Proof. intros Hk. apply (first_free_least m (size m) 0 k). unfold lowest_fd in Hk. lia. Qed.

(** Brings a world built by a chain of calls to one record. *)
Ltac world_eq :=
  unfold emit, set_fds, set_errno; simpl;
  rewrite <- ?app_assoc; simpl; try reflexivity.

Lemma of_N_ltb_0 (n : N) : (Z.of_N n <? 0) = false.
Proof. apply Z.ltb_ge. lia. Qed.

Section Facts.
Context `{Platform}.
Variable os : OS.

Lemma AVERROR_ltb_0 (e : positive) : (AVERROR (Z.pos e) <? 0) = true.
Proof. apply Z.ltb_lt, AVERROR_neg. Qed.

Lemma AVERROR_eqb_0 (e : positive) : (AVERROR (Z.pos e) =? 0) = false.
Proof. apply Z.eqb_neq. pose proof (AVERROR_neg e). lia. Qed.

Lemma fd_node_of_N (n : N) (w : World) :
  fd_node os (Z.of_N n) w = os_node os <$> w_fds w !! n.
Proof.
  unfold fd_node. rewrite decide_True by lia. by rewrite N2Z.id.
Qed.

Lemma fd_node_negative (fd : Z) (w : World) : fd < 0 → fd_node os fd w = None.
Proof. intros Hfd. unfold fd_node. by rewrite decide_False by lia. Qed.

(** Closing a number that is not a descriptor changes no descriptor. *)
Lemma sys_close_negative (fd : Z) (w : World) :
  fd < 0 →
  sys_close os fd w =
    (-1, {| w_fds := w_fds w; w_errno := Z.pos EBADF; w_alloc := w_alloc w;
            w_trace := w_trace w ++ [EvClose fd (-1)] |}).
Proof. intros Hfd. unfold sys_close. by rewrite fd_node_negative. Qed.

(** *** [v4l2_device_open_video], by what the node answers *)

Lemma open_video_open_failed devname cap w e :
  nd_open (os_node os devname) = Some e →
  v4l2_device_open_video os devname cap w =
    (AVERROR (Z.pos e), cap,
     {| w_fds := w_fds w; w_errno := Z.pos e; w_alloc := w_alloc w;
        w_trace := w_trace w ++ [EvOpen devname true (-1)] |}).
Proof.
  intros Hopen. unfold v4l2_device_open_video, sys_open. rewrite Hopen. world_eq.
Qed.

Lemma open_video_query_failed devname cap w e :
  nd_open (os_node os devname) = None →
  nd_querycap (os_node os devname) = inl e →
  let fd := Z.of_N (lowest_fd (w_fds w)) in
  v4l2_device_open_video os devname cap w =
    (AVERROR (Z.pos e), zero_capability,
     {| w_fds := w_fds w; w_errno := Z.pos e; w_alloc := w_alloc w;
        w_trace := w_trace w ++
          [EvOpen devname true fd; EvQuerycap fd (-1); EvClose fd 0] |}).
Proof.
  intros Hopen Hquery fd.
  unfold v4l2_device_open_video, sys_open. rewrite Hopen.
  rewrite of_N_ltb_0. unfold ioctl_querycap.
  rewrite fd_node_of_N. simpl. rewrite lookup_insert_eq. simpl.
  rewrite Hquery. simpl. unfold sys_close. rewrite fd_node_of_N. simpl.
  rewrite lookup_insert_eq. simpl. rewrite N2Z.id.
  rewrite delete_insert_id by apply lowest_fd_fresh.
  world_eq.
Qed.

Lemma open_video_succeeded devname cap w c :
  nd_open (os_node os devname) = None →
  nd_querycap (os_node os devname) = inr c →
  let fd := lowest_fd (w_fds w) in
  v4l2_device_open_video os devname cap w =
    (Z.of_N fd, c,
     {| w_fds := <[fd := devname]> (w_fds w); w_errno := w_errno w;
        w_alloc := w_alloc w;
        w_trace := w_trace w ++
          [EvOpen devname true (Z.of_N fd); EvQuerycap (Z.of_N fd) 0] |}).
Proof.
  intros Hopen Hquery fd.
  unfold v4l2_device_open_video, sys_open. rewrite Hopen.
  rewrite of_N_ltb_0. unfold ioctl_querycap.
  rewrite fd_node_of_N. simpl. rewrite lookup_insert_eq. simpl.
  rewrite Hquery. world_eq.
Qed.

(** *** [v4l2_device_open_media], by what the node answers *)

Lemma open_media_open_failed devname info w e :
  nd_open (os_node os devname) = Some e →
  v4l2_device_open_media os devname info w =
    (AVERROR (Z.pos e), info,
     {| w_fds := w_fds w; w_errno := Z.pos e; w_alloc := w_alloc w;
        w_trace := w_trace w ++ [EvOpen devname false (-1)] |}).
Proof.
  intros Hopen. unfold v4l2_device_open_media, sys_open. rewrite Hopen. world_eq.
Qed.

Lemma open_media_query_failed devname info w e :
  nd_open (os_node os devname) = None →
  nd_device_info (os_node os devname) = inl e →
  let fd := Z.of_N (lowest_fd (w_fds w)) in
  v4l2_device_open_media os devname info w =
    (AVERROR (Z.pos e), zero_info,
     {| w_fds := w_fds w; w_errno := Z.pos e; w_alloc := w_alloc w;
        w_trace := w_trace w ++
          [EvOpen devname false fd; EvDeviceInfo fd (-1); EvClose fd 0] |}).
Proof.
  intros Hopen Hquery fd.
  unfold v4l2_device_open_media, sys_open. rewrite Hopen.
  rewrite of_N_ltb_0. unfold ioctl_device_info.
  rewrite fd_node_of_N. simpl. rewrite lookup_insert_eq. simpl.
  rewrite Hquery. simpl. unfold sys_close. rewrite fd_node_of_N. simpl.
  rewrite lookup_insert_eq. simpl. rewrite N2Z.id.
  rewrite delete_insert_id by apply lowest_fd_fresh.
  world_eq.
Qed.

Lemma open_media_succeeded devname info w i :
  nd_open (os_node os devname) = None →
  nd_device_info (os_node os devname) = inr i →
  let fd := lowest_fd (w_fds w) in
  v4l2_device_open_media os devname info w =
    (Z.of_N fd, i,
     {| w_fds := <[fd := devname]> (w_fds w); w_errno := w_errno w;
        w_alloc := w_alloc w;
        w_trace := w_trace w ++
          [EvOpen devname false (Z.of_N fd); EvDeviceInfo (Z.of_N fd) 0] |}).
Proof.
  intros Hopen Hquery fd.
  unfold v4l2_device_open_media, sys_open. rewrite Hopen.
  rewrite of_N_ltb_0. unfold ioctl_device_info.
  rewrite fd_node_of_N. simpl. rewrite lookup_insert_eq. simpl.
  rewrite Hquery. world_eq.
Qed.

End Facts.

(** ** The prober, one turn at a time *)

Section ProbeFacts.
Context `{Platform}.
Variable os : OS.
Variable checkdev : V4L2DeviceVideo → bool.

(** One turn of the loop of [ff_v4l2_device_probe_video], by what stands
    behind the entry. *)
Lemma probe_video_body_eq d_name l w :
  probe_video_body os checkdev d_name l w =
  let path := snprintf_dev PATH_MAX d_name in
  let fd := lowest_fd (w_fds w) in
  match probe_candidate os (w_fds w) d_name with
  | NotVideo => (Continue l, w)
  | VideoOpenFailed e =>
      (Continue {| pl_ret := AVERROR (Z.pos e);
                   pl_tmpdev :=
                     {| video_devname := path;
                        video_fd := video_fd (pl_tmpdev l);
                        video_capability := video_capability (pl_tmpdev l) |} |},
       {| w_fds := w_fds w; w_errno := Z.pos e; w_alloc := w_alloc w;
          w_trace := w_trace w ++ [EvOpen path true (-1)] |})
  | VideoQueryFailed e =>
      (Continue {| pl_ret := AVERROR (Z.pos e);
                   pl_tmpdev :=
                     {| video_devname := path;
                        video_fd := video_fd (pl_tmpdev l);
                        video_capability := zero_capability |} |},
       {| w_fds := w_fds w; w_errno := Z.pos e; w_alloc := w_alloc w;
          w_trace := w_trace w ++
            [EvOpen path true (Z.of_N fd); EvQuerycap (Z.of_N fd) (-1);
             EvClose (Z.of_N fd) 0] |})
  | VideoOpened h =>
      if checkdev h
      then
        (Break {| pl_ret := video_fd h; pl_tmpdev := h |},
         {| w_fds := <[fd := path]> (w_fds w); w_errno := w_errno w;
            w_alloc := w_alloc w;
            w_trace := w_trace w ++
              [EvOpen path true (Z.of_N fd); EvQuerycap (Z.of_N fd) 0] |})
      else
        (Continue {| pl_ret := AVERROR (Z.pos EINVAL); pl_tmpdev := h |},
         {| w_fds := w_fds w; w_errno := w_errno w; w_alloc := w_alloc w;
            w_trace := w_trace w ++
              [EvOpen path true (Z.of_N fd); EvQuerycap (Z.of_N fd) 0;
               EvClose (Z.of_N fd) 0] |})
  end.
Proof.
  unfold probe_video_body, probe_candidate.
  destruct (negb (strncmp d_name "video" 5 =? 0)); [done|].
  destruct (nd_open (os_node os (snprintf_dev PATH_MAX d_name))) as [e|] eqn:Hopen.
  { rewrite (open_video_open_failed os _ _ _ e Hopen).
    by rewrite AVERROR_ltb_0. }
  destruct (nd_querycap (os_node os (snprintf_dev PATH_MAX d_name)))
    as [e|c] eqn:Hquery.
  { rewrite (open_video_query_failed os _ _ _ e Hopen Hquery).
    by rewrite AVERROR_ltb_0. }
  rewrite (open_video_succeeded os _ _ _ c Hopen Hquery).
  rewrite of_N_ltb_0. cbv zeta.
  destruct (checkdev _); [done|].
  cbn [video_fd]. unfold sys_close. rewrite fd_node_of_N. simpl.
  rewrite lookup_insert_eq. simpl. rewrite N2Z.id.
  rewrite delete_insert_id by apply lowest_fd_fresh.
  world_eq.
Qed.

Lemma readdir_entries_app t1 t2 :
  readdir_entries (t1 ++ t2) = readdir_entries t1 ++ readdir_entries t2.
Proof. apply omap_app. Qed.

(** A turn reads no directory entry by itself and allocates nothing. *)
Lemma probe_video_body_frame d_name l w c w' :
  probe_video_body os checkdev d_name l w = (c, w') →
  readdir_entries (w_trace w') = readdir_entries (w_trace w) ∧
  w_alloc w' = w_alloc w.
Proof.
  rewrite probe_video_body_eq. cbv zeta.
  destruct (probe_candidate os (w_fds w) d_name) as [|e|e|h];
    [| | |destruct (checkdev h)]; intros [= <- <-]; simpl;
    rewrite ?readdir_entries_app; simpl; by rewrite ?app_nil_r.
Qed.

(** A turn on an entry that is not accepted ends in [continue], with the
    descriptor table as it found it. *)
Lemma probe_video_body_not_accepted d_name l w :
  accepted os checkdev (w_fds w) d_name = false →
  ∃ l1 w1,
    probe_video_body os checkdev d_name l w = (Continue l1, w1) ∧
    w_fds w1 = w_fds w ∧
    pl_ret l1 = default (pl_ret l) (probe_failure os (w_fds w) d_name).
Proof.
  intros Hno. rewrite probe_video_body_eq. cbv zeta.
  unfold accepted, probe_failure in *.
  destruct (probe_candidate os (w_fds w) d_name) as [|e|e|h];
    [| | |rewrite Hno]; eexists _, _; (split; [reflexivity|done]).
Qed.

Lemma default_last_omap_cons {A B} (f : A → option B) (x : A) (l : list A) (r : B) :
  default r (last (omap f (x :: l))) =
  default (default r (f x)) (last (omap f l)).
Proof.
  simpl. destruct (f x) as [y|]; simpl; [|done].
  rewrite last_cons. by destruct (last _).
Qed.

(** While no entry is accepted the loop runs to the end of the directory,
    the descriptor table is the same after every turn, and [ret] holds the
    error of the last entry that was tried. *)
Lemma probe_video_loop_exhausted entries l w :
  Forall (λ d, accepted os checkdev (w_fds w) d = false) entries →
  ∃ l' w',
    probe_video_loop os checkdev entries l w = (l', w') ∧
    w_fds w' = w_fds w ∧
    w_alloc w' = w_alloc w ∧
    pl_ret l' =
      default (pl_ret l) (last (omap (probe_failure os (w_fds w)) entries)) ∧
    readdir_entries (w_trace w') =
      readdir_entries (w_trace w) ++ (Some <$> entries) ++ [None].
Proof.
  revert l w. induction entries as [|d rest IH]; intros l w Hall.
  { eexists _, _. split; [reflexivity|]. simpl.
    by rewrite readdir_entries_app. }
  apply Forall_cons in Hall as [Hd Hrest].
  destruct (probe_video_body_not_accepted d l (emit (EvReaddir (Some d)) w) Hd)
    as (l1 & w1 & Hbody & Hfds1 & Hret1).
  destruct (probe_video_body_frame _ _ _ _ _ Hbody) as [Hrd1 Hal1].
  change (w_fds (emit (EvReaddir (Some d)) w)) with (w_fds w) in *.
  change (w_alloc (emit (EvReaddir (Some d)) w)) with (w_alloc w) in *.
  rewrite <- Hfds1 in Hrest.
  destruct (IH l1 w1 Hrest) as (l' & w' & Hloop & Hfds & Halloc & Hret & Hrd).
  exists l', w'. cbn [probe_video_loop]. rewrite Hbody, Hloop.
  rewrite default_last_omap_cons, <- Hret1, <- Hfds1.
  repeat split; try congruence.
  rewrite Hrd, Hrd1. simpl. rewrite readdir_entries_app. simpl.
  by rewrite <- app_assoc.
Qed.

(** The loop stops at the first accepted entry: nothing behind it is read,
    and the locals hold its record. *)
Lemma probe_video_loop_accepts pre c post l w h :
  Forall (λ d, accepted os checkdev (w_fds w) d = false) pre →
  probe_candidate os (w_fds w) c = VideoOpened h →
  checkdev h = true →
  ∃ w',
    probe_video_loop os checkdev (pre ++ c :: post) l w =
      ({| pl_ret := video_fd h; pl_tmpdev := h |}, w') ∧
    w_fds w' = <[lowest_fd (w_fds w) := video_devname h]> (w_fds w) ∧
    w_alloc w' = w_alloc w ∧
    readdir_entries (w_trace w') =
      readdir_entries (w_trace w) ++ (Some <$> pre) ++ [Some c] ∧
    ∃ t, w_trace w' =
           t ++ [EvOpen (video_devname h) true (video_fd h);
                 EvQuerycap (video_fd h) 0].
Proof.
  revert l w. induction pre as [|d pre IH]; intros l w Hall Hcand Hyes.
  - simpl. rewrite probe_video_body_eq. cbv zeta. simpl. rewrite Hcand, Hyes.
    unfold probe_candidate in Hcand.
    destruct (negb _); [done|]. destruct (nd_open _); [done|].
    destruct (nd_querycap _); [done|]. injection Hcand as <-. simpl.
    eexists. split; [reflexivity|]. simpl.
    rewrite !readdir_entries_app. simpl. rewrite app_nil_r.
    repeat split; try done.
    exists (w_trace w ++ [EvReaddir (Some c)]). by rewrite <- app_assoc.
  - apply Forall_cons in Hall as [Hd Hrest].
    destruct (probe_video_body_not_accepted d l (emit (EvReaddir (Some d)) w) Hd)
      as (l1 & w1 & Hbody & Hfds1 & _).
    destruct (probe_video_body_frame _ _ _ _ _ Hbody) as [Hrd1 Hal1].
    change (w_fds (emit (EvReaddir (Some d)) w)) with (w_fds w) in *.
  change (w_alloc (emit (EvReaddir (Some d)) w)) with (w_alloc w) in *.
    change (w_alloc (emit (EvReaddir (Some d)) w)) with (w_alloc w) in *.
    rewrite <- Hfds1 in Hrest, Hcand.
    destruct (IH l1 w1 Hrest Hcand Hyes)
      as (w' & Hloop & Hfds & Halloc & Hrd & Ht).
    exists w'. cbn [probe_video_loop app]. rewrite Hbody, Hloop.
    rewrite <- Hfds1.
    repeat split; try congruence.
    rewrite Hrd, Hrd1. simpl. rewrite readdir_entries_app. simpl.
    by rewrite <- app_assoc.
Qed.

End ProbeFacts.

(** ** The prober as a whole *)

Section ProbeCall.
Context `{Platform}.
Variable os : OS.
Variable checkdev : V4L2DeviceVideo → bool.

Lemma sys_opendir_failed w e :
  os_dev os = inl e →
  sys_opendir os w =
    (None, {| w_fds := w_fds w; w_errno := Z.pos e; w_alloc := w_alloc w;
              w_trace := w_trace w ++ [EvOpendir None] |}).
Proof. intros Hdev. unfold sys_opendir. by rewrite Hdev. Qed.

Lemma sys_opendir_succeeded w entries :
  os_dev os = inr entries →
  sys_opendir os w =
    (Some {| dd_fd := lowest_fd (w_fds w); dd_entries := entries |},
     {| w_fds := enumeration_fds w; w_errno := w_errno w;
        w_alloc := w_alloc w;
        w_trace := w_trace w ++ [EvOpendir (Some (lowest_fd (w_fds w)))] |}).
Proof. intros Hdev. unfold sys_opendir. by rewrite Hdev. Qed.

Lemma enumeration_fds_closed w : delete (lowest_fd (w_fds w)) (enumeration_fds w) = w_fds w.
Proof. apply delete_insert_id, lowest_fd_fresh. Qed.

(** The descriptor a candidate gets is not the one of the directory. *)
Lemma candidate_fd_not_dir w :
  lowest_fd (w_fds w) ≠ lowest_fd (enumeration_fds w).
Proof.
  intros Heq. pose proof (lowest_fd_fresh (enumeration_fds w)) as Hfresh.
  rewrite <- Heq in Hfresh. unfold enumeration_fds in Hfresh.
  by rewrite lookup_insert_eq in Hfresh.
Qed.

Lemma candidate_fd_fresh w : w_fds w !! lowest_fd (enumeration_fds w) = None.
Proof.
  by destruct (proj1 (lookup_insert_None (w_fds w) (lowest_fd (w_fds w))
                        (lowest_fd (enumeration_fds w)) "/dev")
                     (lowest_fd_fresh (enumeration_fds w))).
Qed.

Lemma probe_candidate_opened m d_name h :
  probe_candidate os m d_name = VideoOpened h →
  strncmp d_name "video" 5 = 0 ∧
  h = {| video_devname := snprintf_dev PATH_MAX d_name;
         video_fd := Z.of_N (lowest_fd m);
         video_capability := video_capability h |} ∧
  nd_open (os_node os (snprintf_dev PATH_MAX d_name)) = None ∧
  nd_querycap (os_node os (snprintf_dev PATH_MAX d_name)) =
    inr (video_capability h).
Proof.
  unfold probe_candidate.
  destruct (strncmp d_name "video" 5 =? 0) eqn:Hcmp; [|done]. simpl.
  destruct (nd_open _); [done|]. destruct (nd_querycap _); [done|].
  intros [= <-]. apply Z.eqb_eq in Hcmp. done.
Qed.

Lemma probe_failure_negative m entries r :
  r < 0 → default r (last (omap (probe_failure os m) entries)) < 0.
Proof.
  intros Hr. destruct (last _) as [z|] eqn:Hlast; [|done]. simpl.
  apply last_Some_elem_of, list_elem_of_omap in Hlast as (d & _ & Hd).
  unfold probe_failure in Hd.
  destruct (probe_candidate os m d); simplify_eq; apply AVERROR_neg.
Qed.

(** Either no entry is accepted, or there is a first one that is. *)
Lemma entries_split m entries :
  Forall (λ d, accepted os checkdev m d = false) entries ∨
  ∃ pre c post h,
    entries = pre ++ c :: post ∧
    Forall (λ d, accepted os checkdev m d = false) pre ∧
    probe_candidate os m c = VideoOpened h ∧ checkdev h = true.
Proof.
  induction entries as [|d rest IH]; [by left|].
  destruct (accepted os checkdev m d) eqn:Hd.
  - right. exists [], d, rest. unfold accepted in Hd.
    destruct (probe_candidate os m d) as [| | |h] eqn:Hcand; try done.
    by exists h.
  - destruct IH as [Hall|(pre & c & post & h & -> & Hpre & Hc & Hyes)].
    + left. by constructor.
    + right. exists (d :: pre), c, post, h. repeat split; try done.
      by constructor.
Qed.

(** An unreadable directory: nothing is enumerated. *)
Lemma probe_video_unreadable device w e :
  os_dev os = inl e →
  ff_v4l2_device_probe_video os device checkdev w =
    (AVERROR (Z.pos e), device,
     {| w_fds := w_fds w; w_errno := Z.pos e; w_alloc := w_alloc w;
        w_trace := w_trace w ++ [EvOpendir None] |}).
Proof.
  intros Hdev. unfold ff_v4l2_device_probe_video.
  by rewrite (sys_opendir_failed _ _ Hdev).
Qed.

(** No entry accepted: the call fails and leaves [device] alone. *)
Lemma probe_video_exhausted device w entries :
  os_dev os = inr entries →
  Forall (λ d, accepted os checkdev (enumeration_fds w) d = false) entries →
  ∃ w',
    ff_v4l2_device_probe_video os device checkdev w =
      (default (AVERROR (Z.pos EINVAL))
         (last (omap (probe_failure os (enumeration_fds w)) entries)),
       device, w') ∧
    w_fds w' = w_fds w ∧
    w_alloc w' = w_alloc w ∧
    readdir_entries (w_trace w') =
      readdir_entries (w_trace w) ++ (Some <$> entries) ++ [None] ∧
    ∃ t, w_trace w' = t ++ [EvClosedir (lowest_fd (w_fds w))].
Proof.
  intros Hdev Hall. unfold ff_v4l2_device_probe_video.
  rewrite (sys_opendir_succeeded _ _ Hdev). cbn [dd_entries].
  match goal with
  | |- context [probe_video_loop os checkdev entries ?l0 ?w0] =>
      destruct (probe_video_loop_exhausted os checkdev entries l0 w0 Hall)
        as (l' & w1 & -> & Hfds & Halloc & Hret & Hrd)
  end.
  cbn [pl_ret w_fds w_alloc w_trace] in Hfds, Halloc, Hret, Hrd.
  pose proof (probe_failure_negative (enumeration_fds w) entries
                (AVERROR (Z.pos EINVAL)) (AVERROR_neg _)) as Hneg.
  rewrite <- Hret in Hneg |- *.
  apply Z.ltb_lt in Hneg as ->.
  eexists. split; [reflexivity|]. unfold sys_closedir. simpl.
  rewrite Hfds, enumeration_fds_closed, Halloc.
  repeat split; try done.
  - rewrite readdir_entries_app, Hrd, readdir_entries_app. simpl.
    by rewrite !app_nil_r.
  - by eexists.
Qed.

(** A first accepted entry: the call succeeds with its record, and only
    its descriptor is added to the table. *)
Lemma probe_video_found device w pre c post h :
  os_dev os = inr (pre ++ c :: post) →
  Forall (λ d, accepted os checkdev (enumeration_fds w) d = false) pre →
  probe_candidate os (enumeration_fds w) c = VideoOpened h →
  checkdev h = true →
  ∃ w',
    ff_v4l2_device_probe_video os device checkdev w = (0, h, w') ∧
    w_fds w' =
      <[lowest_fd (enumeration_fds w) := video_devname h]> (w_fds w) ∧
    w_alloc w' = w_alloc w ∧
    readdir_entries (w_trace w') =
      readdir_entries (w_trace w) ++ (Some <$> pre) ++ [Some c] ∧
    ∃ t, w_trace w' =
           t ++ [EvOpen (video_devname h) true (video_fd h);
                 EvQuerycap (video_fd h) 0;
                 EvClosedir (lowest_fd (w_fds w))].
Proof.
  intros Hdev Hpre Hcand Hyes. unfold ff_v4l2_device_probe_video.
  rewrite (sys_opendir_succeeded _ _ Hdev). cbn [dd_entries].
  match goal with
  | |- context [probe_video_loop os checkdev _ ?l0 ?w0] =>
      destruct (probe_video_loop_accepts os checkdev pre c post l0 w0 h
                  Hpre Hcand Hyes)
        as (w1 & -> & Hfds & Halloc & Hrd & t & Ht)
  end.
  cbn [pl_ret pl_tmpdev w_fds w_alloc w_trace] in Hfds, Halloc, Hrd |- *.
  destruct (probe_candidate_opened _ _ _ Hcand) as (_ & Hh & _).
  assert ((video_fd h <? 0) = false) as ->
    by (rewrite Hh; apply of_N_ltb_0).
  eexists. split; [reflexivity|]. unfold sys_closedir. simpl.
  rewrite Hfds, Halloc.
  rewrite delete_insert_ne by apply candidate_fd_not_dir.
  rewrite enumeration_fds_closed.
  repeat split; try done.
  - rewrite readdir_entries_app, Hrd, readdir_entries_app. simpl.
    by rewrite !app_nil_r.
  - exists t. rewrite Ht. by rewrite <- app_assoc.
Qed.

End ProbeCall.

(** ** The topology check *)

Section CheckFacts.
Context `{Platform}.
Variable os : OS.

(** The scan answers 0 exactly when one of the records it visits
    designates the video device; otherwise it leaves [ret] alone. *)
Lemma scan_interfaces_found interfaces vmaj vmin ret :
  (∃ i, i ∈ interfaces ∧ designates vmaj vmin i) →
  scan_interfaces interfaces vmaj vmin ret = 0.
Proof.
  intros (i & Hin & Htype & Hmaj & Hmin).
  induction interfaces as [|j rest IH]; [by apply elem_of_nil in Hin|].
  simpl. apply elem_of_cons in Hin as [<-|Hin].
  - rewrite Htype, Hmaj, Hmin, !Z.eqb_refl. done.
  - rewrite (IH Hin). by repeat case_match.
Qed.

Lemma scan_interfaces_missed interfaces vmaj vmin ret :
  (∀ i, i ∈ interfaces → ¬ designates vmaj vmin i) →
  scan_interfaces interfaces vmaj vmin ret = ret.
Proof.
  induction interfaces as [|j rest IH]; intros Hnone; [done|]. simpl.
  rewrite IH by (intros i Hi; apply Hnone; by right).
  destruct (intf_type j =? MEDIA_INTF_T_V4L_VIDEO) eqn:Htype; [|done]. simpl.
  destruct (devnode_major j =? vmaj) eqn:Hmaj; [|done].
  destruct (devnode_minor j =? vmin) eqn:Hmin; [|done].
  exfalso. apply (Hnone j); [by left|].
  by apply Z.eqb_eq in Htype, Hmaj, Hmin.
Qed.

Lemma scan_interfaces_zero interfaces vmaj vmin ret :
  scan_interfaces interfaces vmaj vmin ret = 0 → ret ≠ 0 →
  ∃ i, i ∈ interfaces ∧ designates vmaj vmin i.
Proof.
  induction interfaces as [|j rest IH]; simpl; [done|].
  destruct (intf_type j =? MEDIA_INTF_T_V4L_VIDEO) eqn:Htype; simpl.
  - destruct (devnode_major j =? vmaj) eqn:Hmaj; simpl.
    + destruct (devnode_minor j =? vmin) eqn:Hmin.
      * intros _ _. exists j. split; [by left|].
        by apply Z.eqb_eq in Htype, Hmaj, Hmin.
      * intros Hz Hr. destruct (IH Hz Hr) as (i & Hi & Hd).
        exists i. split; [by right|done].
    + intros Hz Hr. destruct (IH Hz Hr) as (i & Hi & Hd).
      exists i. split; [by right|done].
  - intros Hz Hr. destruct (IH Hz Hr) as (i & Hi & Hd).
    exists i. split; [by right|done].
Qed.

Lemma scan_interfaces_cases interfaces vmaj vmin ret :
  scan_interfaces interfaces vmaj vmin ret = 0 ∨
  scan_interfaces interfaces vmaj vmin ret = ret.
Proof.
  induction interfaces as [|j rest IH]; simpl; [by right|].
  repeat case_match; auto.
Qed.

(** The records the scan visits after a successful fill are those of the
    graph, whatever the buffer held. *)
Lemma take_filled {A} (graph buf : list A) :
  take (Z.to_nat (Z.of_nat (length graph))) (graph ++ drop (length graph) buf)
  = graph.
Proof. rewrite Nat2Z.id. by rewrite take_app_length. Qed.

(** The check opens and closes nothing, reads no directory entry, and
    answers 0 or an error. *)
Lemma check_media_frame fd vmaj vmin w r w' :
  v4l2_device_check_media os fd vmaj vmin w = (r, w') →
  w_fds w' = w_fds w ∧ (r = 0 ∨ r < 0) ∧
  readdir_entries (w_trace w') = readdir_entries (w_trace w).
Proof.
  unfold v4l2_device_check_media, ioctl_g_topology, av_mallocz_interfaces,
    av_freep, fd_node.
  pose proof (AVERROR_neg EINVAL). pose proof (AVERROR_neg ENOMEM).
  pose proof (AVERROR_neg ENOSPC). pose proof (AVERROR_neg EBADF).
  repeat (case_match; simplify_eq; simpl in *);
    intros; simplify_eq; simpl;
    rewrite ?readdir_entries_app; simpl; rewrite ?app_nil_r;
    repeat split; try done;
    try (right; apply AVERROR_neg);
    try (match goal with
         | |- context [scan_interfaces ?l ?a ?b ?r] =>
             destruct (scan_interfaces_cases l a b r) as [->| ->]; [by left|by right]
         end).
Qed.

(** A check that answers 0 has seen a non-empty graph, got its buffer, had
    it filled, and found a record designating the video device. *)
Lemma check_media_matched n path vmaj vmin w w' :
  w_fds w !! n = Some path →
  v4l2_device_check_media os (Z.of_N n) vmaj vmin w = (0, w') →
  ∃ g1 g2,
    nd_topology_count (os_node os path) = inr g1 ∧ g1 ≠ [] ∧
    next_alloc w = true ∧
    nd_topology_fill (os_node os path) = inr g2 ∧
    (length g2 ≤ length g1)%nat ∧
    ∃ i, i ∈ g2 ∧ designates vmaj vmin i.
Proof.
  intros Hfd.
  unfold v4l2_device_check_media, ioctl_g_topology, av_mallocz_interfaces,
    av_freep, next_alloc.
  rewrite fd_node_of_N, Hfd. simpl.
  pose proof (AVERROR_neg EINVAL). pose proof (AVERROR_neg ENOMEM).
  pose proof (AVERROR_neg ENOSPC).
  destruct (nd_topology_count (os_node os path)) as [e|g1]; simpl.
  { intros [= Hz _]. pose proof (AVERROR_neg e). lia. }
  destruct (Z.of_nat (length g1) <=? 0) eqn:Hlen.
  { intros [= Hz _]. lia. }
  destruct (match w_alloc w with [] => true | b :: _ => b end); simpl;
    [|intros [= Hz _]; lia].
  rewrite fd_node_of_N. simpl. rewrite Hfd. simpl.
  destruct (nd_topology_fill (os_node os path)) as [e|g2]; simpl.
  { intros [= Hz _]. pose proof (AVERROR_neg e). lia. }
  destruct (Z.of_nat (length g1) <? Z.of_nat (length g2)) eqn:Hfit; simpl.
  { intros [= Hz _]. lia. }
  rewrite take_filled. intros [= Hz _].
  exists g1, g2. repeat split; try done.
  - intros ->. simpl in Hlen. done.
  - apply Z.ltb_ge in Hfit. lia.
  - apply (scan_interfaces_zero _ _ _ _ Hz). lia.
Qed.

(** A graph without interfaces: EINVAL, and no buffer is asked for. *)
Lemma check_media_empty n path vmaj vmin w :
  w_fds w !! n = Some path →
  nd_topology_count (os_node os path) = inr [] →
  v4l2_device_check_media os (Z.of_N n) vmaj vmin w =
    (AVERROR (Z.pos EINVAL),
     {| w_fds := w_fds w; w_errno := w_errno w; w_alloc := w_alloc w;
        w_trace := w_trace w ++ [EvTopology (Z.of_N n) false 0] |}).
Proof.
  intros Hfd Hcount. unfold v4l2_device_check_media, ioctl_g_topology.
  rewrite fd_node_of_N, Hfd. simpl. rewrite Hcount. simpl. world_eq.
Qed.

(** No memory for the buffer: ENOMEM, and the graph is not asked for a
    second time. *)
Lemma check_media_alloc_failed n path vmaj vmin w g1 :
  w_fds w !! n = Some path →
  nd_topology_count (os_node os path) = inr g1 → g1 ≠ [] →
  next_alloc w = false →
  v4l2_device_check_media os (Z.of_N n) vmaj vmin w =
    (AVERROR (Z.pos ENOMEM),
     {| w_fds := w_fds w; w_errno := w_errno w; w_alloc := tail (w_alloc w);
        w_trace := w_trace w ++
          [EvTopology (Z.of_N n) false 0;
           EvAlloc (Z.of_nat (length g1)) false] |}).
Proof.
  intros Hfd Hcount Hne Halloc.
  unfold v4l2_device_check_media, ioctl_g_topology, av_mallocz_interfaces.
  rewrite fd_node_of_N, Hfd. simpl. rewrite Hcount. simpl.
  assert ((Z.of_nat (length g1) <=? 0) = false) as ->.
  { apply Z.leb_gt. destruct g1; [done|simpl; lia]. }
  unfold next_alloc in Halloc. rewrite Halloc. simpl. world_eq.
Qed.

End CheckFacts.

(** ** The resolver, one turn at a time *)

Section ResolveFacts.
Context `{Platform}.
Variable os : OS.
Variable statbuf : stat.

(** One turn of the loop of [ff_v4l2_device_retrieve_media], by what stands
    behind the entry.  When the check does not answer 0 the turn calls
    [close] on the answer of the check, not on the descriptor. *)
Lemma retrieve_media_body_eq d_name l w :
  retrieve_media_body os statbuf d_name l w =
  let path := snprintf_dev PATH_MAX d_name in
  let fd := lowest_fd (w_fds w) in
  match media_candidate os d_name with
  | NotMedia => (Continue l, w)
  | MediaOpenFailed e =>
      (Continue {| ml_fd := ml_fd l; ml_ret := AVERROR (Z.pos e);
                   ml_devname := path; ml_info := ml_info l |},
       {| w_fds := w_fds w; w_errno := Z.pos e; w_alloc := w_alloc w;
          w_trace := w_trace w ++ [EvOpen path false (-1)] |})
  | MediaQueryFailed e =>
      (Continue {| ml_fd := ml_fd l; ml_ret := AVERROR (Z.pos e);
                   ml_devname := path; ml_info := zero_info |},
       {| w_fds := w_fds w; w_errno := Z.pos e; w_alloc := w_alloc w;
          w_trace := w_trace w ++
            [EvOpen path false (Z.of_N fd); EvDeviceInfo (Z.of_N fd) (-1);
             EvClose (Z.of_N fd) 0] |})
  | MediaOpened info =>
      let '(ret, w2) :=
        v4l2_device_check_media os (Z.of_N fd) (major (st_rdev statbuf))
          (minor (st_rdev statbuf))
          {| w_fds := <[fd := path]> (w_fds w); w_errno := w_errno w;
             w_alloc := w_alloc w;
             w_trace := w_trace w ++
               [EvOpen path false (Z.of_N fd); EvDeviceInfo (Z.of_N fd) 0] |} in
      let l' := {| ml_fd := Z.of_N fd; ml_ret := ret; ml_devname := path;
                   ml_info := info |} in
      if ret =? 0 then (Break l', w2)
      else
        (Continue l',
         {| w_fds := w_fds w2; w_errno := Z.pos EBADF; w_alloc := w_alloc w2;
            w_trace := w_trace w2 ++ [EvClose ret (-1)] |})
  end.
Proof.
  unfold retrieve_media_body, media_candidate.
  destruct (negb (strncmp d_name "media" 5 =? 0)); [done|].
  destruct (nd_open (os_node os (snprintf_dev PATH_MAX d_name))) as [e|] eqn:Hopen.
  { rewrite (open_media_open_failed os _ _ _ e Hopen).
    by rewrite AVERROR_ltb_0. }
  destruct (nd_device_info (os_node os (snprintf_dev PATH_MAX d_name)))
    as [e|i] eqn:Hquery.
  { rewrite (open_media_query_failed os _ _ _ e Hopen Hquery).
    by rewrite AVERROR_ltb_0. }
  rewrite (open_media_succeeded os _ _ _ i Hopen Hquery).
  rewrite of_N_ltb_0. cbv zeta.
  destruct (v4l2_device_check_media _ _ _ _ _) as [ret w2] eqn:Hcheck.
  destruct (ret =? 0) eqn:Hret; [done|].
  apply check_media_frame in Hcheck as (_ & [->|Hneg] & _); [done|].
  by rewrite sys_close_negative.
Qed.

(** A turn that ends in [break] found a controller of the video device and
    holds its descriptor; none of the descriptors open before is touched. *)
Lemma retrieve_media_body_break d_name l w l' w' :
  retrieve_media_body os statbuf d_name l w = (Break l', w') →
  strncmp d_name "media" 5 = 0 ∧
  ml_ret l' = 0 ∧
  ml_devname l' = snprintf_dev PATH_MAX d_name ∧
  ml_fd l' = Z.of_N (lowest_fd (w_fds w)) ∧
  w_fds w' = <[lowest_fd (w_fds w) := ml_devname l']> (w_fds w) ∧
  controls os (major (st_rdev statbuf)) (minor (st_rdev statbuf))
    (ml_devname l') (ml_info l').
Proof.
  rewrite retrieve_media_body_eq. cbv zeta. unfold media_candidate.
  destruct (strncmp d_name "media" 5 =? 0) eqn:Hcmp; [|done]. simpl.
  destruct (nd_open _) eqn:Hopen; [done|].
  destruct (nd_device_info _) eqn:Hinfo; [done|].
  destruct (v4l2_device_check_media _ _ _ _ _) as [ret w2] eqn:Hcheck.
  destruct (ret =? 0) eqn:Hret; [|done].
  apply Z.eqb_eq in Hret as ->. intros [= <- <-]. simpl.
  pose proof (check_media_frame _ _ _ _ _ _ _ Hcheck) as (Hfds & _ & _).
  apply check_media_matched with (path := snprintf_dev PATH_MAX d_name)
    in Hcheck as (g1 & g2 & Hg1 & Hne & _ & Hg2 & _ & Hi);
    [|simpl; by rewrite lookup_insert_eq].
  apply Z.eqb_eq in Hcmp.
  repeat split; try done. by exists g1, g2.
Qed.

(** A turn that ends in [continue] leaves an error in [ret] if there was
    one, and closes no descriptor that was open before. *)
Lemma retrieve_media_body_continue d_name l w l' w' :
  retrieve_media_body os statbuf d_name l w = (Continue l', w') →
  ml_ret l < 0 →
  ml_ret l' < 0 ∧ w_fds w ⊆ w_fds w'.
Proof.
  rewrite retrieve_media_body_eq. cbv zeta.
  destruct (media_candidate os d_name) as [|e|e|info].
  - by intros [= <- <-].
  - intros [= <- <-] _. split; [apply AVERROR_neg|done].
  - intros [= <- <-] _. split; [apply AVERROR_neg|done].
  - destruct (v4l2_device_check_media _ _ _ _ _) as [ret w2] eqn:Hcheck.
    apply check_media_frame in Hcheck as (Hfds & Hret & _).
    destruct (ret =? 0) eqn:Hz; [done|]. apply Z.eqb_neq in Hz.
    intros [= <- <-] _. simpl. split; [lia|].
    rewrite Hfds. simpl. apply insert_subseteq, lowest_fd_fresh.
Qed.

(** The loop as a whole: [ret] ends as 0 or as an error, and 0 means the
    locals describe a controller of the video device whose descriptor is
    open and was not open before. *)
Lemma retrieve_media_loop_result entries l w l' w' :
  retrieve_media_loop os statbuf entries l w = (l', w') →
  ml_ret l < 0 →
  w_fds w ⊆ w_fds w' ∧
  (ml_ret l' < 0 ∨
   ml_ret l' = 0 ∧
   ∃ d_name fd,
     d_name ∈ entries ∧ strncmp d_name "media" 5 = 0 ∧
     ml_devname l' = snprintf_dev PATH_MAX d_name ∧
     ml_fd l' = Z.of_N fd ∧
     w_fds w !! fd = None ∧
     w_fds w' !! fd = Some (ml_devname l') ∧
     controls os (major (st_rdev statbuf)) (minor (st_rdev statbuf))
       (ml_devname l') (ml_info l')).
Proof.
  revert l w. induction entries as [|d rest IH]; intros l w; simpl.
  { intros [= <- <-] Hneg. split; [done|by left]. }
  destruct (retrieve_media_body os statbuf d l (emit (EvReaddir (Some d)) w))
    as [[l1|l1] w1] eqn:Hbody.
  - intros Hloop Hneg.
    apply retrieve_media_body_continue in Hbody as [Hneg1 Hsub1]; [|done].
    simpl in Hsub1.
    destruct (IH _ _ Hloop Hneg1) as [Hsub Hres].
    split; [by etrans|].
    destruct Hres as [Hres|(Hz & d' & fd & Hin & Hcmp & Hname & Hfd & Hfresh & Hopen & Hctl)];
      [by left|right].
    split; [done|]. exists d', fd.
    split; [by right|].
    assert (w_fds w !! fd = None) as Hfresh0.
    { destruct (w_fds w !! fd) eqn:Hw; [|done].
      eapply lookup_weaken in Hw; [|exact Hsub1]. congruence. }
    exact (conj Hcmp (conj Hname (conj Hfd (conj Hfresh0 (conj Hopen Hctl))))).
  - intros [= <- <-] _.
    apply retrieve_media_body_break in Hbody
      as (Hcmp & Hz & Hname & Hfd & Hfds & Hctl).
    simpl in Hfd, Hfds. split.
    + rewrite Hfds. apply insert_subseteq, lowest_fd_fresh.
    + right. split; [done|].
      exists d, (lowest_fd (w_fds w)).
      split; [by left|].
      refine (conj Hcmp (conj Hname (conj Hfd (conj _ (conj _ Hctl))))).
      * apply lowest_fd_fresh.
      * rewrite Hfds. apply lookup_insert_eq.
Qed.

End ResolveFacts.

(** ** The resolver as a whole *)

Section ResolveCall.
Context `{Platform}.
Variable os : OS.

(** [fstat] either fails, touching nothing but [errno], or delivers the
    record of the node behind the descriptor. *)
Lemma sys_fstat_cases fd statbuf w :
  (∃ e,
     sys_fstat os fd statbuf w =
       (-1, statbuf,
        {| w_fds := w_fds w; w_errno := Z.pos e; w_alloc := w_alloc w;
           w_trace := w_trace w ++ [EvFstat fd (-1)] |}) ∧
     (fd_node os fd w = None ∨
      ∃ nd, fd_node os fd w = Some nd ∧ nd_stat nd = inl e)) ∨
  (∃ nd s,
     fd_node os fd w = Some nd ∧ nd_stat nd = inr s ∧
     sys_fstat os fd statbuf w =
       (0, s,
        {| w_fds := w_fds w; w_errno := w_errno w; w_alloc := w_alloc w;
           w_trace := w_trace w ++ [EvFstat fd 0] |})).
Proof.
  unfold sys_fstat. destruct (fd_node os fd w) as [nd|] eqn:Hnode.
  - destruct (nd_stat nd) as [e|s] eqn:Hstat.
    + left. exists e. split; [done|]. right. by exists nd.
    + right. by exists nd, s.
  - left. exists EBADF. split; [done|by left].
Qed.

(** A call that answers 0 hands back a controller of the video device:
    its path comes from a "media" entry of the directory, its descriptor
    was not open before the call and is open on that path after it. *)
Lemma retrieve_media_success video_device media_device w out w' :
  ff_v4l2_device_retrieve_media os video_device media_device w = (0, out, w') →
  ∃ nd s entries d_name fd,
    fd_node os (video_fd video_device) w = Some nd ∧ nd_stat nd = inr s ∧
    os_dev os = inr entries ∧ d_name ∈ entries ∧
    strncmp d_name "media" 5 = 0 ∧
    media_devname out = snprintf_dev PATH_MAX d_name ∧
    media_fd out = Z.of_N fd ∧
    w_fds w !! fd = None ∧
    w_fds w' !! fd = Some (media_devname out) ∧
    controls os (major (st_rdev s)) (minor (st_rdev s))
      (media_devname out) (media_info out).
Proof.
  unfold ff_v4l2_device_retrieve_media.
  destruct (sys_fstat_cases (video_fd video_device) zero_stat w)
    as [(e & -> & _)|(nd & s & Hnode & Hstat & ->)].
  { simpl. intros [= Hz _ _]. pose proof (AVERROR_neg e). lia. }
  simpl. destruct (os_dev os) as [e|entries] eqn:Hdev.
  { rewrite (sys_opendir_failed os _ e Hdev). simpl.
    intros [= Hz _ _]. pose proof (AVERROR_neg e). lia. }
  rewrite (sys_opendir_succeeded os _ entries Hdev). cbn [dd_entries].
  destruct (retrieve_media_loop _ _ _ _ _) as [l' w2] eqn:Hloop.
  apply retrieve_media_loop_result in Hloop as [Hsub Hres];
    [|apply AVERROR_neg].
  destruct Hres as [Hneg|(Hz & d & fd & Hin & Hcmp & Hname & Hfd & Hfresh & Hopen & Hctl)].
  { apply Z.ltb_lt in Hneg as Hlt. rewrite Hlt. intros [= Hr _ _]. lia. }
  rewrite Hz. simpl. intros [= <- <-].
  exists nd, s, entries, d, fd. simpl in Hfresh |- *.
  unfold enumeration_fds in Hfresh.
  apply lookup_insert_None in Hfresh as [Hfresh Hne].
  refine (conj Hnode (conj Hstat (conj eq_refl (conj Hin (conj Hcmp
            (conj Hname (conj Hfd (conj Hfresh (conj _ Hctl))))))))).
  by rewrite lookup_delete_ne.
Qed.

(** Entries that are not named "media..." are read and passed over. *)
Lemma retrieve_media_loop_no_media statbuf entries l w :
  Forall (λ d, media_candidate os d = NotMedia) entries →
  ∃ w', retrieve_media_loop os statbuf entries l w = (l, w') ∧
        w_fds w' = w_fds w.
Proof.
  revert w. induction entries as [|d rest IH]; intros w Hall; simpl.
  { by eexists. }
  apply Forall_cons in Hall as [Hd Hrest].
  rewrite retrieve_media_body_eq. cbv zeta. rewrite Hd.
  destruct (IH (emit (EvReaddir (Some d)) w) Hrest) as (w' & -> & Hfds).
  by exists w'.
Qed.

End ResolveCall.

(** * The claims *)

(** ** Resolver *)

(** C1.  Whenever [ff_v4l2_device_retrieve_media] answers 0, the interface
    graph of the controller it hands back holds at least one record of V4L
    video type whose device numbers are exactly the major and minor of the
    node behind the descriptor of the input video device; the descriptor of
    the handle is open on the node its path names.  No handle without such a
    record is ever handed back. *)
Theorem retrieve_media_returns_controller `{Platform} (os : OS)
  video_device media_device w out w' :
  ff_v4l2_device_retrieve_media os video_device media_device w = (0, out, w') →
  ∃ nd s graph i,
    fd_node os (video_fd video_device) w = Some nd ∧ nd_stat nd = inr s ∧
    fd_node os (media_fd out) w' = Some (os_node os (media_devname out)) ∧
    nd_topology_fill (os_node os (media_devname out)) = inr graph ∧
    i ∈ graph ∧
    intf_type i = MEDIA_INTF_T_V4L_VIDEO ∧
    (devnode_major i, devnode_minor i) =
      (major (st_rdev s), minor (st_rdev s)).
Proof.
  intros Hcall.
  apply retrieve_media_success in Hcall
    as (nd & s & entries & d & fd & Hnode & Hstat & _ & _ & _ & _ & Hfd & _
        & Hopen & _ & _ & g1 & g2 & _ & _ & Hfill & i & Hin & Htype & Hmaj & Hmin).
  exists nd, s, g2, i.
  rewrite Hfd, fd_node_of_N, Hopen, Hmaj, Hmin. done.
Qed.

Lemma retrieve_media_returns_controller_witness :
  ∃ out w',
    ff_v4l2_device_retrieve_media
      (Example.dev (inr ["video0"; "media0"; "media1"]))
      Example.video0 Example.stale_media (Example.holding_video0 [])
    = (0, out, w') ∧
    ∃ nd s graph i,
      fd_node (Example.dev (inr ["video0"; "media0"; "media1"]))
        (video_fd Example.video0) (Example.holding_video0 []) = Some nd ∧
      nd_stat nd = inr s ∧
      fd_node (Example.dev (inr ["video0"; "media0"; "media1"]))
        (media_fd out) w' = Some (Example.nodes (media_devname out)) ∧
      nd_topology_fill (Example.nodes (media_devname out)) = inr graph ∧
      i ∈ graph ∧
      intf_type i = MEDIA_INTF_T_V4L_VIDEO ∧
      (devnode_major i, devnode_minor i) =
        (major (st_rdev s), minor (st_rdev s)).
Proof.
  eexists _, _. split; [vm_compute; reflexivity|].
  apply (retrieve_media_returns_controller
           (Example.dev (inr ["video0"; "media0"; "media1"]))
           Example.video0 Example.stale_media (Example.holding_video0 [])).
  vm_compute. reflexivity.
Defined.

(** C3, evaluated.  With /dev/media0 before /dev/media1 and the caller
    holding /dev/video0, the resolver opens /dev/media0 on descriptor 5,
    finds no record for 81:0 in its graph, and then calls [close] on the
    answer of the check (-22) instead of descriptor 5: the call is refused,
    and descriptor 5 is still open on /dev/media0 when the resolver hands
    back /dev/media1 on descriptor 6. *)
Lemma retrieve_media_leaks_rejected_descriptor :
  ff_v4l2_device_retrieve_media (Example.dev (inr ["media0"; "media1"]))
    Example.video0 Example.stale_media (Example.holding_video0 [])
  = (0,
     {| media_devname := "/dev/media1"; media_fd := 6;
        media_info := Example.controller |},
     {| w_fds := <[6%N := "/dev/media1"]>
                   (<[5%N := "/dev/media0"]>
                      (<[3%N := "/dev/video0"]> Example.stdio));
        w_errno := Z.pos EBADF;
        w_alloc := [];
        w_trace :=
          [EvFstat 3 0; EvOpendir (Some 4%N);
           EvReaddir (Some "media0"); EvOpen "/dev/media0" false 5;
           EvDeviceInfo 5 0; EvTopology 5 false 0; EvAlloc 3 true;
           EvTopology 5 true 0; EvFree; EvClose (-22) (-1);
           EvReaddir (Some "media1"); EvOpen "/dev/media1" false 6;
           EvDeviceInfo 6 0; EvTopology 6 false 0; EvAlloc 2 true;
           EvTopology 6 true 0; EvFree; EvClosedir 4] |}).
Proof. vm_compute. reflexivity. Qed.

Section ResolveTurns.
Context `{Platform}.
Variable os : OS.
Variable statbuf : stat.

(** The world in which a candidate that opened is checked. *)
Lemma retrieve_media_loop_opened d_name rest l w info :
  media_candidate os d_name = MediaOpened info →
  let path := snprintf_dev PATH_MAX d_name in
  let fd := lowest_fd (w_fds w) in
  retrieve_media_loop os statbuf (d_name :: rest) l w =
  let '(ret, w2) :=
    v4l2_device_check_media os (Z.of_N fd) (major (st_rdev statbuf))
      (minor (st_rdev statbuf))
      {| w_fds := <[fd := path]> (w_fds w); w_errno := w_errno w;
         w_alloc := w_alloc w;
         w_trace := w_trace w ++
           [EvReaddir (Some d_name); EvOpen path false (Z.of_N fd);
            EvDeviceInfo (Z.of_N fd) 0] |} in
  let l' := {| ml_fd := Z.of_N fd; ml_ret := ret; ml_devname := path;
               ml_info := info |} in
  if ret =? 0 then (l', w2)
  else
    retrieve_media_loop os statbuf rest l'
      {| w_fds := w_fds w2; w_errno := Z.pos EBADF; w_alloc := w_alloc w2;
         w_trace := w_trace w2 ++ [EvClose ret (-1)] |}.
Proof.
  intros Hcand. cbn [retrieve_media_loop].
  rewrite retrieve_media_body_eq. cbv zeta. rewrite Hcand.
  unfold emit. simpl. rewrite <- app_assoc. simpl.
  destruct (v4l2_device_check_media _ _ _ _ _) as [ret w2].
  by destruct (ret =? 0).
Qed.

(** A candidate that fails to open, or to answer the info query, is passed
    over: the loop goes on with the rest of the directory. *)
Lemma retrieve_media_loop_failed d_name rest l w e :
  media_candidate os d_name = MediaOpenFailed e ∨
  media_candidate os d_name = MediaQueryFailed e →
  ∃ l1 w1,
    retrieve_media_loop os statbuf (d_name :: rest) l w =
      retrieve_media_loop os statbuf rest l1 w1 ∧
    ml_ret l1 = AVERROR (Z.pos e) ∧
    w_fds w1 = w_fds w ∧
    readdir_entries (w_trace w1) = readdir_entries (w_trace w) ++ [Some d_name].
Proof.
  intros Hcand. cbn [retrieve_media_loop].
  rewrite retrieve_media_body_eq. cbv zeta.
  destruct Hcand as [-> | ->]; eexists _, _; (split; [reflexivity|]); simpl;
    rewrite !readdir_entries_app; simpl; by rewrite app_nil_r.
Qed.

End ResolveTurns.

(** C6.  A controller whose size probe reports no interface is rejected by
    the check with AVERROR(EINVAL); the loop of the resolver then goes on
    with the entries that follow it in the directory; and no call that
    answers 0 hands back a handle on that controller. *)
Theorem empty_topology_is_passed_over `{Platform} (os : OS) statbuf
  d_name rest l w info :
  media_candidate os d_name = MediaOpened info →
  nd_topology_count (os_node os (snprintf_dev PATH_MAX d_name)) = inr [] →
  (∀ n vmaj vmin w1,
     w_fds w1 !! n = Some (snprintf_dev PATH_MAX d_name) →
     (v4l2_device_check_media os (Z.of_N n) vmaj vmin w1).1
       = AVERROR (Z.pos EINVAL) ∧
     w_alloc (v4l2_device_check_media os (Z.of_N n) vmaj vmin w1).2
       = w_alloc w1) ∧
  (∃ l1 w1,
     retrieve_media_loop os statbuf (d_name :: rest) l w =
       retrieve_media_loop os statbuf rest l1 w1 ∧
     ml_ret l1 = AVERROR (Z.pos EINVAL) ∧
     readdir_entries (w_trace w1) =
       readdir_entries (w_trace w) ++ [Some d_name]) ∧
  (∀ video_device media_device w0 out w',
     ff_v4l2_device_retrieve_media os video_device media_device w0
       = (0, out, w') →
     media_devname out ≠ snprintf_dev PATH_MAX d_name).
Proof.
  intros Hcand Hcount. split; [|split].
  - intros n vmaj vmin w1 Hfd.
    by rewrite (check_media_empty os n _ vmaj vmin w1 Hfd Hcount).
  - rewrite (retrieve_media_loop_opened os statbuf _ rest l w info Hcand).
    cbv zeta.
    rewrite (check_media_empty os _ (snprintf_dev PATH_MAX d_name));
      [|simpl; apply lookup_insert_eq|done].
    rewrite AVERROR_eqb_0. eexists _, _. split; [reflexivity|]. simpl.
    split; [done|]. rewrite !readdir_entries_app. simpl.
    by rewrite !app_nil_r.
  - intros video_device media_device w0 out w' Hcall Hsame.
    apply retrieve_media_success in Hcall
      as (nd & s & entries & d & fd & _ & _ & _ & _ & _ & _ & _ & _ & _ & Hctl).
    destruct Hctl as (_ & _ & g1 & g2 & Hg1 & Hne & _).
    rewrite Hsame, Hcount in Hg1. by injection Hg1 as <-.
Qed.

Lemma empty_topology_is_passed_over_witness :
  media_candidate (Example.dev (inr ["media2"; "media1"])) "media2"
    = MediaOpened Example.controller ∧
  ∃ l1 w1,
    retrieve_media_loop (Example.dev (inr ["media2"; "media1"]))
      zero_stat ["media2"; "media1"]
      {| ml_fd := 0; ml_ret := -22; ml_devname := ""; ml_info := zero_info |}
      (Example.holding_video0 []) =
    retrieve_media_loop (Example.dev (inr ["media2"; "media1"]))
      zero_stat ["media1"] l1 w1 ∧
    ml_ret l1 = -22 ∧
    readdir_entries (w_trace w1) = [Some "media2"].
Proof.
  split; [vm_compute; reflexivity|].
  refine (proj1 (proj2 (empty_topology_is_passed_over
            (Example.dev (inr ["media2"; "media1"])) zero_stat "media2"
            ["media1"]
            {| ml_fd := 0; ml_ret := -22; ml_devname := "";
               ml_info := zero_info |}
            (Example.holding_video0 []) Example.controller _ _)));
    vm_compute; reflexivity.
Defined.

(** C4, as stated, fails.  With /dev/media0 before /dev/media1 and no memory
    for the first buffer, the check of /dev/media0 answers AVERROR(ENOMEM);
    the resolver reads the next entry all the same, and the call answers 0
    with a handle on /dev/media1. *)
Lemma alloc_failure_does_not_stop_resolver :
  ff_v4l2_device_retrieve_media (Example.dev (inr ["media0"; "media1"]))
    Example.video0 Example.stale_media (Example.holding_video0 [false])
  = (0,
     {| media_devname := "/dev/media1"; media_fd := 6;
        media_info := Example.controller |},
     {| w_fds := <[6%N := "/dev/media1"]>
                   (<[5%N := "/dev/media0"]>
                      (<[3%N := "/dev/video0"]> Example.stdio));
        w_errno := Z.pos EBADF;
        w_alloc := [];
        w_trace :=
          [EvFstat 3 0; EvOpendir (Some 4%N);
           EvReaddir (Some "media0"); EvOpen "/dev/media0" false 5;
           EvDeviceInfo 5 0; EvTopology 5 false 0; EvAlloc 3 false;
           EvClose (-12) (-1);
           EvReaddir (Some "media1"); EvOpen "/dev/media1" false 6;
           EvDeviceInfo 6 0; EvTopology 6 false 0; EvAlloc 2 true;
           EvTopology 6 true 0; EvFree; EvClosedir 4] |})
  ∧ AVERROR (Z.pos ENOMEM) ≠ 0.
Proof. split; [vm_compute; reflexivity|vm_compute; discriminate]. Qed.

(** C4, amended.  When there is no memory for the buffer of a controller
    candidate, the check answers AVERROR(ENOMEM) and the resolver treats it
    like any other candidate that did not pass: the loop goes on with the
    entries that follow.  AVERROR(ENOMEM) is what the loop ends with when
    none of those entries is named "media...". *)
Theorem alloc_failure_skips_candidate `{Platform} (os : OS) statbuf
  d_name rest l w info g1 :
  media_candidate os d_name = MediaOpened info →
  nd_topology_count (os_node os (snprintf_dev PATH_MAX d_name)) = inr g1 →
  g1 ≠ [] →
  next_alloc w = false →
  (∃ l1 w1,
     retrieve_media_loop os statbuf (d_name :: rest) l w =
       retrieve_media_loop os statbuf rest l1 w1 ∧
     ml_ret l1 = AVERROR (Z.pos ENOMEM) ∧
     w_alloc w1 = tail (w_alloc w) ∧
     readdir_entries (w_trace w1) =
       readdir_entries (w_trace w) ++ [Some d_name]) ∧
  (Forall (λ d, media_candidate os d = NotMedia) rest →
   ml_ret (retrieve_media_loop os statbuf (d_name :: rest) l w).1
     = AVERROR (Z.pos ENOMEM)).
Proof.
  intros Hcand Hcount Hne Halloc.
  rewrite (retrieve_media_loop_opened os statbuf _ rest l w info Hcand).
  cbv zeta.
  rewrite (check_media_alloc_failed os _ (snprintf_dev PATH_MAX d_name)
             _ _ _ g1); [|simpl; apply lookup_insert_eq|done..].
  rewrite AVERROR_eqb_0. split.
  - eexists _, _. split; [reflexivity|]. simpl.
    split; [done|]. split; [done|]. rewrite !readdir_entries_app. simpl.
    by rewrite !app_nil_r.
  - intros Hrest.
    match goal with
    | |- context [retrieve_media_loop os statbuf rest ?l1 ?w1] =>
        destruct (retrieve_media_loop_no_media os statbuf rest l1 w1 Hrest)
          as (w' & -> & _)
    end.
    done.
Qed.

Lemma alloc_failure_skips_candidate_witness :
  next_alloc (Example.holding_video0 [false]) = false ∧
  ∃ l1 w1,
    retrieve_media_loop (Example.dev (inr ["media0"; "media1"]))
      zero_stat ["media0"; "media1"]
      {| ml_fd := 0; ml_ret := -22; ml_devname := ""; ml_info := zero_info |}
      (Example.holding_video0 [false]) =
    retrieve_media_loop (Example.dev (inr ["media0"; "media1"]))
      zero_stat ["media1"] l1 w1 ∧
    ml_ret l1 = -12 ∧
    w_alloc w1 = [] ∧
    readdir_entries (w_trace w1) = [Some "media0"].
Proof.
  split; [reflexivity|].
  refine (proj1 (alloc_failure_skips_candidate
            (Example.dev (inr ["media0"; "media1"])) zero_stat "media0"
            ["media1"]
            {| ml_fd := 0; ml_ret := -22; ml_devname := "";
               ml_info := zero_info |}
            (Example.holding_video0 [false]) Example.controller
            [Example.v4l_video 1 81 5; Example.v4l_video 2 81 6;
             Example.v4l_subdev 3 81 0] _ _ _ _));
    [vm_compute; reflexivity | vm_compute; reflexivity
    | discriminate | reflexivity].
Defined.

(** ** Both enumerations *)

(** A video candidate that fails to open, or to answer the capability
    query, is passed over: the loop goes on with the rest of the directory
    and no descriptor stays open. *)
Lemma probe_video_loop_failed `{Platform} (os : OS) checkdev d_name rest l w e :
  probe_candidate os (w_fds w) d_name = VideoOpenFailed e ∨
  probe_candidate os (w_fds w) d_name = VideoQueryFailed e →
  ∃ l1 w1,
    probe_video_loop os checkdev (d_name :: rest) l w =
      probe_video_loop os checkdev rest l1 w1 ∧
    pl_ret l1 = AVERROR (Z.pos e) ∧
    w_fds w1 = w_fds w ∧
    readdir_entries (w_trace w1) = readdir_entries (w_trace w) ++ [Some d_name].
Proof.
  intros Hcand. cbn [probe_video_loop].
  rewrite probe_video_body_eq. cbv zeta.
  change (w_fds (emit (EvReaddir (Some d_name)) w)) with (w_fds w).
  destruct Hcand as [-> | ->]; eexists _, _; (split; [reflexivity|]); simpl;
    rewrite !readdir_entries_app; simpl; by rewrite app_nil_r.
Qed.

(** C9.  When [fstat] on the descriptor of the input video device fails,
    the resolver answers AVERROR(errno) at once: the only call made is that
    [fstat], no directory is opened and no descriptor changes.  When
    [opendir] fails, the prober and the resolver answer AVERROR(errno) at
    once: no entry is read and no candidate is opened. *)
Theorem fatal_failures_return_at_once `{Platform} (os : OS) checkdev :
  (∀ video_device media_device w r s w1,
     sys_fstat os (video_fd video_device) zero_stat w = (r, s, w1) →
     r < 0 →
     ff_v4l2_device_retrieve_media os video_device media_device w
       = (AVERROR (w_errno w1), media_device, w1) ∧
     AVERROR (w_errno w1) < 0 ∧
     w_fds w1 = w_fds w ∧
     w_trace w1 = w_trace w ++ [EvFstat (video_fd video_device) (-1)]) ∧
  (∀ device w e,
     os_dev os = inl e →
     ff_v4l2_device_probe_video os device checkdev w
       = (AVERROR (Z.pos e), device,
          {| w_fds := w_fds w; w_errno := Z.pos e; w_alloc := w_alloc w;
             w_trace := w_trace w ++ [EvOpendir None] |})) ∧
  (∀ video_device media_device w e nd s,
     os_dev os = inl e →
     fd_node os (video_fd video_device) w = Some nd →
     nd_stat nd = inr s →
     ff_v4l2_device_retrieve_media os video_device media_device w
       = (AVERROR (Z.pos e), media_device,
          {| w_fds := w_fds w; w_errno := Z.pos e; w_alloc := w_alloc w;
             w_trace := w_trace w ++
               [EvFstat (video_fd video_device) 0; EvOpendir None] |})).
Proof.
  split; [|split].
  - intros video_device media_device w r s w1 Hstat Hr.
    unfold ff_v4l2_device_retrieve_media. rewrite Hstat.
    apply Z.ltb_lt in Hr as Hlt. rewrite Hlt. split; [done|].
    destruct (sys_fstat_cases os (video_fd video_device) zero_stat w)
      as [(e & Heq & _)|(nd & s' & _ & _ & Heq)];
      rewrite Heq in Hstat; simplify_eq.
    simpl. split; [apply AVERROR_neg|done].
  - intros device w e Hdev. by apply probe_video_unreadable.
  - intros video_device media_device w e nd s Hdev Hnode Hstat.
    unfold ff_v4l2_device_retrieve_media, sys_fstat.
    rewrite Hnode, Hstat. simpl.
    rewrite (sys_opendir_failed os _ e Hdev). simpl.
    by rewrite <- app_assoc.
Qed.

Lemma fatal_failures_return_at_once_witness :
  ff_v4l2_device_retrieve_media (Example.dev (inr ["media1"]))
    Example.video0 Example.stale_media (Example.start [])
  = (-9, Example.stale_media,
     {| w_fds := Example.stdio; w_errno := 9; w_alloc := [];
        w_trace := [EvFstat 3 (-1)] |}) ∧
  ff_v4l2_device_probe_video (Example.dev (inl 13%positive))
    Example.stale_video Example.wants_video1 (Example.start [])
  = (-13, Example.stale_video,
     {| w_fds := Example.stdio; w_errno := 13; w_alloc := [];
        w_trace := [EvOpendir None] |}) ∧
  ff_v4l2_device_retrieve_media (Example.dev (inl 13%positive))
    Example.video0 Example.stale_media (Example.holding_video0 [])
  = (-13, Example.stale_media,
     {| w_fds := <[3%N := "/dev/video0"]> Example.stdio; w_errno := 13;
        w_alloc := [];
        w_trace := [EvFstat 3 0; EvOpendir None] |}).
Proof.
  split; [|split].
  - refine (proj1 (proj1 (fatal_failures_return_at_once
              (Example.dev (inr ["media1"])) Example.wants_video1)
              Example.video0 Example.stale_media (Example.start []) (-1)
              zero_stat
              {| w_fds := Example.stdio; w_errno := 9; w_alloc := [];
                 w_trace := [EvFstat 3 (-1)] |} _ _));
      [vm_compute; reflexivity|lia].
  - refine (proj1 (proj2 (fatal_failures_return_at_once
              (Example.dev (inl 13%positive)) Example.wants_video1))
              Example.stale_video (Example.start []) 13%positive _).
    reflexivity.
  - refine (proj2 (proj2 (fatal_failures_return_at_once
              (Example.dev (inl 13%positive)) Example.wants_video1))
              Example.video0 Example.stale_media (Example.holding_video0 [])
              13%positive (Example.video_node 81 0)
              {| st_dev := 6; st_rdev := gnu_dev_makedev 81 0 |} _ _ _);
      vm_compute; reflexivity.
Defined.

(** C10.  Every call of the prober and of the resolver answers 0 or a
    negative code, and whenever the answer is negative the record behind
    the caller's output pointer is what it was before the call. *)
Theorem output_untouched_on_failure `{Platform} (os : OS) checkdev :
  (∀ device w r out w',
     ff_v4l2_device_probe_video os device checkdev w = (r, out, w') →
     r = 0 ∨ r < 0 ∧ out = device) ∧
  (∀ video_device media_device w r out w',
     ff_v4l2_device_retrieve_media os video_device media_device w
       = (r, out, w') →
     r = 0 ∨ r < 0 ∧ out = media_device).
Proof.
  split.
  - intros device w r out w'. unfold ff_v4l2_device_probe_video.
    destruct (sys_opendir os w) as [[dirp|] w0] eqn:Hdir.
    + destruct (probe_video_loop _ _ _ _ _) as [l w1].
      destruct (pl_ret l <? 0) eqn:Hret; intros [= <- <- <-]; [|by left].
      right. by apply Z.ltb_lt in Hret.
    + intros [= <- <- <-]. right. split; [|done].
      unfold sys_opendir in Hdir. destruct (os_dev os); simplify_eq.
      apply AVERROR_neg.
  - intros video_device media_device w r out w'.
    unfold ff_v4l2_device_retrieve_media.
    destruct (sys_fstat_cases os (video_fd video_device) zero_stat w)
      as [(e & -> & _)|(nd & s & _ & _ & ->)].
    { simpl. intros [= <- <- <-]. right. split; [apply AVERROR_neg|done]. }
    simpl.
    destruct (sys_opendir os _) as [[dirp|] w0] eqn:Hdir.
    + destruct (retrieve_media_loop _ _ _ _ _) as [l w1].
      destruct (ml_ret l <? 0) eqn:Hret; intros [= <- <- <-]; [|by left].
      right. by apply Z.ltb_lt in Hret.
    + intros [= <- <- <-]. right. split; [|done].
      unfold sys_opendir in Hdir. destruct (os_dev os); simplify_eq.
      apply AVERROR_neg.
Qed.

Lemma output_untouched_on_failure_witness :
  (-22 = 0 ∨ -22 < 0 ∧ Example.stale_video = Example.stale_video) ∧
  (-22 = 0 ∨ -22 < 0 ∧ Example.stale_media = Example.stale_media).
Proof.
  split.
  - refine (proj1 (output_untouched_on_failure
              (Example.dev (inr ["video0"; "video1"])) Example.wants_none)
              Example.stale_video (Example.start []) (-22)
              Example.stale_video
              {| w_fds := Example.stdio; w_errno := 0; w_alloc := [];
                 w_trace :=
                   [EvOpendir (Some 3%N);
                    EvReaddir (Some "video0"); EvOpen "/dev/video0" true 4;
                    EvQuerycap 4 0; EvClose 4 0;
                    EvReaddir (Some "video1"); EvOpen "/dev/video1" true 4;
                    EvQuerycap 4 0; EvClose 4 0;
                    EvReaddir None; EvClosedir 3] |} _).
    vm_compute. reflexivity.
  - refine (proj2 (output_untouched_on_failure
              (Example.dev (inr ["video0"; "media0"])) Example.wants_none)
              Example.video0 Example.stale_media (Example.holding_video0 [])
              (-22) Example.stale_media
              {| w_fds := <[5%N := "/dev/media0"]>
                            (<[3%N := "/dev/video0"]> Example.stdio);
                 w_errno := 9; w_alloc := [];
                 w_trace :=
                   [EvFstat 3 0; EvOpendir (Some 4%N);
                    EvReaddir (Some "video0");
                    EvReaddir (Some "media0"); EvOpen "/dev/media0" false 5;
                    EvDeviceInfo 5 0; EvTopology 5 false 0; EvAlloc 3 true;
                    EvTopology 5 true 0; EvFree; EvClose (-22) (-1);
                    EvReaddir None; EvClosedir 4] |} _).
    vm_compute. reflexivity.
Defined.

(** ** Prober *)

Lemma first_accepted_split `{Platform} (os : OS) checkdev m entries h :
  first_accepted os checkdev m entries = Some h →
  ∃ pre c post,
    entries = pre ++ c :: post ∧
    Forall (λ d, accepted os checkdev m d = false) pre ∧
    probe_candidate os m c = VideoOpened h ∧ checkdev h = true.
Proof.
  induction entries as [|d rest IH]; simpl; [done|].
  destruct (probe_candidate os m d) as [|e|e|h'] eqn:Hcand;
    [| | |destruct (checkdev h') eqn:Hyes];
    try (intros Hrest; destruct (IH Hrest) as (pre & c & post & -> & Hpre & Hc);
         exists (d :: pre), c, post; split; [done|]; split; [|done];
         constructor; [|done]; unfold accepted; by rewrite Hcand).
  intros [= <-]. exists [], d, rest. by repeat split.
Qed.

(** C2.  When the directory holds a first entry that opens, answers the
    capability query and is accepted by the predicate, the prober answers 0
    and hands back the record of that entry: its path, the capability
    record its node delivered, and a descriptor that is open on that node
    when the call returns.  The entries read from the directory are those
    before that entry and that entry, and nothing after it. *)
Theorem probe_video_returns_first_accepted `{Platform} (os : OS) checkdev
  device w entries h :
  os_dev os = inr entries →
  first_accepted os checkdev (enumeration_fds w) entries = Some h →
  ∃ w' pre c post,
    ff_v4l2_device_probe_video os device checkdev w = (0, h, w') ∧
    entries = pre ++ c :: post ∧
    Forall (λ d, accepted os checkdev (enumeration_fds w) d = false) pre ∧
    checkdev h = true ∧
    video_devname h = snprintf_dev PATH_MAX c ∧
    nd_querycap (os_node os (video_devname h)) = inr (video_capability h) ∧
    fd_node os (video_fd h) w' = Some (os_node os (video_devname h)) ∧
    readdir_entries (w_trace w') =
      readdir_entries (w_trace w) ++ (Some <$> pre) ++ [Some c].
Proof.
  intros Hdev Hfirst.
  apply first_accepted_split in Hfirst
    as (pre & c & post & -> & Hpre & Hcand & Hyes).
  destruct (probe_video_found os checkdev device w pre c post h
              Hdev Hpre Hcand Hyes)
    as (w' & Hcall & Hfds & _ & Hrd & _).
  destruct (probe_candidate_opened os _ _ _ Hcand)
    as (_ & Hh & _ & Hquery).
  exists w', pre, c, post.
  assert (video_devname h = snprintf_dev PATH_MAX c) as Hname
    by (by rewrite Hh).
  assert (video_fd h = Z.of_N (lowest_fd (enumeration_fds w))) as Hfd
    by (by rewrite Hh).
  repeat split; try done.
  - by rewrite Hname.
  - by rewrite Hfd, fd_node_of_N, Hfds, lookup_insert_eq.
Qed.

Lemma probe_video_returns_first_accepted_witness :
  ∃ w',
    ff_v4l2_device_probe_video
      (Example.dev (inr ["video0"; "videoX"; "video1"; "video2"]))
      Example.stale_video Example.wants_video1 (Example.start [])
    = (0,
       {| video_devname := "/dev/video1"; video_fd := 4;
          video_capability := Example.uvc |}, w') ∧
    readdir_entries (w_trace w') =
      [Some "video0"; Some "videoX"; Some "video1"].
Proof.
  destruct (probe_video_returns_first_accepted
              (Example.dev (inr ["video0"; "videoX"; "video1"; "video2"]))
              Example.wants_video1 Example.stale_video (Example.start [])
              ["video0"; "videoX"; "video1"; "video2"]
              {| video_devname := "/dev/video1"; video_fd := 4;
                 video_capability := Example.uvc |})
    as (w' & pre & c & post & Hcall & _);
    [reflexivity | vm_compute; reflexivity |].
  exists w'. split; [exact Hcall|].
  vm_compute in Hcall. injection Hcall as <-. vm_compute. reflexivity.
Defined.

(** C5, as stated, fails.  The predicate says no to /dev/video0, and
    /dev/videoX, read after it, cannot be opened: the prober answers
    AVERROR(ENOENT), the error of that last [open], and not the code it
    answers when the last entry tried was refused by the predicate. *)
Lemma probe_video_last_error_wins :
  ff_v4l2_device_probe_video (Example.dev (inr ["video0"; "videoX"]))
    Example.stale_video Example.wants_none (Example.start [])
  = (AVERROR (Z.pos Example.ENOENT), Example.stale_video,
     {| w_fds := Example.stdio; w_errno := Z.pos Example.ENOENT;
        w_alloc := [];
        w_trace :=
          [EvOpendir (Some 3%N);
           EvReaddir (Some "video0"); EvOpen "/dev/video0" true 4;
           EvQuerycap 4 0; EvClose 4 0;
           EvReaddir (Some "videoX"); EvOpen "/dev/videoX" true (-1);
           EvReaddir None; EvClosedir 3] |})
  ∧ AVERROR (Z.pos Example.ENOENT) ≠ NoSuitableDevice.
Proof. split; [vm_compute; reflexivity|vm_compute; discriminate]. Qed.

(** C5, amended.  When the predicate accepts no candidate (also when the
    directory has no "video..." entry at all), the prober fails with a
    negative code and the descriptor of the directory is closed when it
    returns, the table of descriptors being what it was before the call.
    The code is the error left by the last "video..." entry: the error of
    its [open] or of its capability query if one of them failed, and
    NoSuitableDevice if the predicate refused it; with no such entry, or
    when every such entry opens and answers the query, the code is
    NoSuitableDevice. *)
Theorem probe_video_all_rejected `{Platform} (os : OS) checkdev device w
  entries :
  os_dev os = inr entries →
  Forall (λ d, accepted os checkdev (enumeration_fds w) d = false) entries →
  ∃ r w',
    ff_v4l2_device_probe_video os device checkdev w = (r, device, w') ∧
    r < 0 ∧
    r = default NoSuitableDevice
          (last (omap (probe_failure os (enumeration_fds w)) entries)) ∧
    (Forall (λ d, ∀ e,
               probe_candidate os (enumeration_fds w) d ≠ VideoOpenFailed e ∧
               probe_candidate os (enumeration_fds w) d ≠ VideoQueryFailed e)
            entries →
     r = NoSuitableDevice) ∧
    w_fds w' = w_fds w ∧
    w_fds w' !! lowest_fd (w_fds w) = None ∧
    ∃ t, w_trace w' = t ++ [EvClosedir (lowest_fd (w_fds w))].
Proof.
  intros Hdev Hall.
  destruct (probe_video_exhausted os checkdev device w entries Hdev Hall)
    as (w' & Hcall & Hfds & _ & _ & Ht).
  eexists _, w'. split; [exact Hcall|].
  split; [apply probe_failure_negative, AVERROR_neg|].
  split; [done|]. split; [|split; [done|split; [|done]]].
  - intros Hclean.
    destruct (last _) as [z|] eqn:Hlast; [|done]. simpl.
    apply last_Some_elem_of, list_elem_of_omap in Hlast as (d & Hd & Hz).
    rewrite Forall_forall in Hclean. specialize (Hclean d Hd).
    unfold probe_failure in Hz.
    destruct (probe_candidate os (enumeration_fds w) d) as [|e|e|h'];
      simplify_eq; try done.
    + by destruct (Hclean e) as [? _].
    + by destruct (Hclean e) as [_ ?].
  - rewrite Hfds. apply lowest_fd_fresh.
Qed.

Lemma probe_video_all_rejected_witness :
  ∃ w',
    ff_v4l2_device_probe_video (Example.dev (inr ["null"; "video0"; "tty"]))
      Example.stale_video Example.wants_none (Example.start [])
    = (-22, Example.stale_video, w') ∧
    w_fds w' = Example.stdio ∧
    w_fds w' !! 3%N = None ∧
    ∃ t, w_trace w' = t ++ [EvClosedir 3].
Proof.
  destruct (probe_video_all_rejected
              (Example.dev (inr ["null"; "video0"; "tty"]))
              Example.wants_none Example.stale_video (Example.start [])
              ["null"; "video0"; "tty"])
    as (r & w' & Hcall & _ & Hr & _ & Hfds & Hdir & Ht);
    [reflexivity | repeat constructor |].
  exists w'. vm_compute in Hr. rewrite Hr in Hcall.
  split; [exact Hcall|]. split; [exact Hfds|]. split; [exact Hdir|exact Ht].
Defined.

(** C7.  When the prober returns, the table of descriptors is the one it
    found, plus, if it answers 0, the descriptor of the accepted candidate
    and nothing else.  A candidate the predicate refuses is closed in the
    same turn, before the next entry is read; a candidate whose capability
    query fails is closed by [v4l2_device_open_video] itself. *)
Theorem probe_video_keeps_only_accepted_descriptor `{Platform} (os : OS)
  checkdev :
  (∀ device w r out w',
     ff_v4l2_device_probe_video os device checkdev w = (r, out, w') →
     r < 0 ∧ w_fds w' = w_fds w ∨
     r = 0 ∧
     ∃ fd, video_fd out = Z.of_N fd ∧ w_fds w !! fd = None ∧
           w_fds w' = <[fd := video_devname out]> (w_fds w)) ∧
  (∀ d_name rest l w h,
     probe_candidate os (w_fds w) d_name = VideoOpened h →
     checkdev h = false →
     ∃ l1 w1,
       probe_video_loop os checkdev (d_name :: rest) l w =
         probe_video_loop os checkdev rest l1 w1 ∧
       w_fds w1 = w_fds w ∧
       w_trace w1 =
         w_trace w ++
           [EvReaddir (Some d_name);
            EvOpen (video_devname h) true (video_fd h);
            EvQuerycap (video_fd h) 0; EvClose (video_fd h) 0]) ∧
  (∀ devname cap w e,
     nd_open (os_node os devname) = None →
     nd_querycap (os_node os devname) = inl e →
     ∃ cap' w1,
       v4l2_device_open_video os devname cap w
         = (AVERROR (Z.pos e), cap', w1) ∧
       w_fds w1 = w_fds w ∧
       w_trace w1 =
         w_trace w ++
           [EvOpen devname true (Z.of_N (lowest_fd (w_fds w)));
            EvQuerycap (Z.of_N (lowest_fd (w_fds w))) (-1);
            EvClose (Z.of_N (lowest_fd (w_fds w))) 0]).
Proof.
  split; [|split].
  - intros device w r out w' Hcall.
    destruct (os_dev os) as [e|entries] eqn:Hdev.
    { rewrite (probe_video_unreadable os checkdev device w e Hdev) in Hcall.
      injection Hcall as <- <- <-. left. split; [apply AVERROR_neg|done]. }
    destruct (entries_split os checkdev (enumeration_fds w) entries)
      as [Hall|(pre & c & post & h & -> & Hpre & Hcand & Hyes)].
    + destruct (probe_video_exhausted os checkdev device w entries Hdev Hall)
        as (w1 & Heq & Hfds & _).
      rewrite Heq in Hcall. injection Hcall as <- <- <-. left.
      split; [apply probe_failure_negative, AVERROR_neg|done].
    + destruct (probe_video_found os checkdev device w pre c post h
                  Hdev Hpre Hcand Hyes) as (w1 & Heq & Hfds & _).
      rewrite Heq in Hcall. injection Hcall as <- <- <-. right.
      split; [done|]. exists (lowest_fd (enumeration_fds w)).
      destruct (probe_candidate_opened os _ _ _ Hcand) as (_ & Hh & _).
      split; [by rewrite Hh|]. split; [apply candidate_fd_fresh|done].
  - intros d_name rest l w h Hcand Hno. cbn [probe_video_loop].
    rewrite probe_video_body_eq. cbv zeta.
    change (w_fds (emit (EvReaddir (Some d_name)) w)) with (w_fds w).
    rewrite Hcand, Hno.
    destruct (probe_candidate_opened os _ _ _ Hcand) as (_ & Hh & _).
    eexists _, _. split; [reflexivity|]. simpl. split; [done|].
    rewrite Hh. simpl. by rewrite <- app_assoc.
  - intros devname cap w e Hopen Hquery.
    rewrite (open_video_query_failed os devname cap w e Hopen Hquery).
    by eexists _, _.
Qed.

Lemma probe_video_keeps_only_accepted_descriptor_witness :
  (∃ fd,
     4 = Z.of_N fd ∧ Example.stdio !! fd = None ∧
     <[4%N := "/dev/video1"]> Example.stdio
       = <[fd := "/dev/video1"]> Example.stdio) ∧
  (∃ l1 w1,
     probe_video_loop (Example.dev (inr ["video0"; "video1"]))
       Example.wants_video1 ["video0"; "video1"]
       {| pl_ret := -22; pl_tmpdev := Example.stale_video |}
       (Example.start []) =
     probe_video_loop (Example.dev (inr ["video0"; "video1"]))
       Example.wants_video1 ["video1"] l1 w1 ∧
     w_fds w1 = Example.stdio ∧
     w_trace w1 =
       [EvReaddir (Some "video0"); EvOpen "/dev/video0" true 3;
        EvQuerycap 3 0; EvClose 3 0]).
Proof.
  split.
  - destruct (proj1 (probe_video_keeps_only_accepted_descriptor
                (Example.dev (inr ["video0"; "video1"])) Example.wants_video1)
                Example.stale_video (Example.start []) 0
                {| video_devname := "/dev/video1"; video_fd := 4;
                   video_capability := Example.uvc |}
                {| w_fds := <[4%N := "/dev/video1"]> Example.stdio;
                   w_errno := 0; w_alloc := [];
                   w_trace :=
                     [EvOpendir (Some 3%N);
                      EvReaddir (Some "video0"); EvOpen "/dev/video0" true 4;
                      EvQuerycap 4 0; EvClose 4 0;
                      EvReaddir (Some "video1"); EvOpen "/dev/video1" true 4;
                      EvQuerycap 4 0; EvClosedir 3] |})
      as [[Hneg _]|[_ Hfd]].
    + vm_compute. reflexivity.
    + vm_compute in Hneg. discriminate Hneg.
    + exact Hfd.
  - refine (proj1 (proj2 (probe_video_keeps_only_accepted_descriptor
              (Example.dev (inr ["video0"; "video1"])) Example.wants_video1))
              "video0" ["video1"]
              {| pl_ret := -22; pl_tmpdev := Example.stale_video |}
              (Example.start [])
              {| video_devname := "/dev/video0"; video_fd := 3;
                 video_capability := Example.uvc |} _ _);
      vm_compute; reflexivity.
Defined.

(** * Further properties of the code *)

(** ** The two open helpers *)

(** X1.  [v4l2_device_open_video] either fails, answering AVERROR of the
    [errno] of the step that failed and leaving the descriptor table as it
    found it, or answers a descriptor that was not open before, now open on
    [devname], with [cap] holding what the node delivered.  After a failed
    [open] the caller's [cap] is untouched; after a failed query it is
    zeroed. *)
Theorem open_video_contract `{Platform} (os : OS) devname cap w r cap' w' :
  v4l2_device_open_video os devname cap w = (r, cap', w') →
  (∃ e, r = AVERROR (Z.pos e) ∧ w_fds w' = w_fds w ∧
        w_errno w' = Z.pos e ∧
        (nd_open (os_node os devname) = Some e ∧ cap' = cap ∨
         nd_open (os_node os devname) = None ∧
         nd_querycap (os_node os devname) = inl e ∧
         cap' = zero_capability)) ∨
  (∃ fd, r = Z.of_N fd ∧ w_fds w !! fd = None ∧
         w_fds w' = <[fd := devname]> (w_fds w) ∧
         w_errno w' = w_errno w ∧
         nd_open (os_node os devname) = None ∧
         nd_querycap (os_node os devname) = inr cap').
Proof.
  destruct (nd_open (os_node os devname)) as [e|] eqn:Hopen.
  { rewrite (open_video_open_failed os _ _ _ e Hopen).
    intros [= <- <- <-]. left. exists e. simpl.
    split_and!; [done..|by left]. }
  destruct (nd_querycap (os_node os devname)) as [e|c] eqn:Hquery.
  { rewrite (open_video_query_failed os _ _ _ e Hopen Hquery).
    intros [= <- <- <-]. left. exists e. simpl.
    split_and!; [done..|by right]. }
  rewrite (open_video_succeeded os _ _ _ c Hopen Hquery).
  intros [= <- <- <-]. right. exists (lowest_fd (w_fds w)). simpl.
  split_and!; try done. apply lowest_fd_fresh.
Qed.

Lemma open_video_contract_witness :
  (∃ e, -25 = AVERROR (Z.pos e) ∧ Example.stdio = Example.stdio ∧
        25 = Z.pos e ∧
        (nd_open (Example.nodes "/dev/media0") = Some e ∧
         zero_capability = Example.uvc ∨
         nd_open (Example.nodes "/dev/media0") = None ∧
         nd_querycap (Example.nodes "/dev/media0") = inl e ∧
         zero_capability = zero_capability)) ∨
  (∃ fd, -25 = Z.of_N fd ∧ Example.stdio !! fd = None ∧
         Example.stdio = <[fd := "/dev/media0"]> Example.stdio ∧
         25 = 0 ∧
         nd_open (Example.nodes "/dev/media0") = None ∧
         nd_querycap (Example.nodes "/dev/media0") = inr zero_capability).
Proof.
  refine (open_video_contract (Example.dev (inr [])) "/dev/media0"
            Example.uvc (Example.start []) (-25) zero_capability
            {| w_fds := Example.stdio; w_errno := 25; w_alloc := [];
               w_trace := [EvOpen "/dev/media0" true 3; EvQuerycap 3 (-1);
                           EvClose 3 0] |} _).
  vm_compute. reflexivity.
Defined.

(** X2.  [v4l2_device_open_media] obeys the same contract, with the info
    query in the place of the capability query. *)
Theorem open_media_contract `{Platform} (os : OS) devname info w r info' w' :
  v4l2_device_open_media os devname info w = (r, info', w') →
  (∃ e, r = AVERROR (Z.pos e) ∧ w_fds w' = w_fds w ∧
        w_errno w' = Z.pos e ∧
        (nd_open (os_node os devname) = Some e ∧ info' = info ∨
         nd_open (os_node os devname) = None ∧
         nd_device_info (os_node os devname) = inl e ∧
         info' = zero_info)) ∨
  (∃ fd, r = Z.of_N fd ∧ w_fds w !! fd = None ∧
         w_fds w' = <[fd := devname]> (w_fds w) ∧
         w_errno w' = w_errno w ∧
         nd_open (os_node os devname) = None ∧
         nd_device_info (os_node os devname) = inr info').
Proof.
  destruct (nd_open (os_node os devname)) as [e|] eqn:Hopen.
  { rewrite (open_media_open_failed os _ _ _ e Hopen).
    intros [= <- <- <-]. left. exists e. simpl.
    split_and!; [done..|by left]. }
  destruct (nd_device_info (os_node os devname)) as [e|i] eqn:Hquery.
  { rewrite (open_media_query_failed os _ _ _ e Hopen Hquery).
    intros [= <- <- <-]. left. exists e. simpl.
    split_and!; [done..|by right]. }
  rewrite (open_media_succeeded os _ _ _ i Hopen Hquery).
  intros [= <- <- <-]. right. exists (lowest_fd (w_fds w)). simpl.
  split_and!; try done. apply lowest_fd_fresh.
Qed.

Lemma open_media_contract_witness :
  (∃ e, 3 = AVERROR (Z.pos e) ∧
        <[3%N := "/dev/media1"]> Example.stdio = Example.stdio ∧
        0 = Z.pos e ∧
        (nd_open (Example.nodes "/dev/media1") = Some e ∧
         Example.controller = zero_info ∨
         nd_open (Example.nodes "/dev/media1") = None ∧
         nd_device_info (Example.nodes "/dev/media1") = inl e ∧
         Example.controller = zero_info)) ∨
  (∃ fd, 3 = Z.of_N fd ∧ Example.stdio !! fd = None ∧
         <[3%N := "/dev/media1"]> Example.stdio
           = <[fd := "/dev/media1"]> Example.stdio ∧
         0 = 0 ∧
         nd_open (Example.nodes "/dev/media1") = None ∧
         nd_device_info (Example.nodes "/dev/media1")
           = inr Example.controller).
Proof.
  refine (open_media_contract (Example.dev (inr [])) "/dev/media1"
            zero_info (Example.start []) 3 Example.controller
            {| w_fds := <[3%N := "/dev/media1"]> Example.stdio;
               w_errno := 0; w_alloc := [];
               w_trace := [EvOpen "/dev/media1" false 3;
                           EvDeviceInfo 3 0] |} _).
  vm_compute. reflexivity.
Defined.

(** ** The topology check, in full *)

Section CheckMore.
Context `{Platform}.
Variable os : OS.

Lemma heap_balance_app t1 t2 :
  heap_balance (t1 ++ t2) = heap_balance t1 + heap_balance t2.
Proof.
  induction t1 as [|e t1 IH]; simpl; [done|].
  destruct e as [| | | | | | | |n [|]| |]; lia.
Qed.

Lemma opened_paths_app t1 t2 :
  opened_paths (t1 ++ t2) = opened_paths t1 ++ opened_paths t2.
Proof. apply omap_app. Qed.

(** What one check adds to the list of calls, and what it takes from the
    list of coming allocations. *)
Lemma check_media_events fd vmaj vmin w r w' :
  v4l2_device_check_media os fd vmaj vmin w = (r, w') →
  (∃ t, w_trace w' = w_trace w ++ t ∧ heap_balance t = 0 ∧
        opened_paths t = [] ∧ readdir_entries t = []) ∧
  (w_alloc w' = w_alloc w ∨ w_alloc w' = tail (w_alloc w)).
Proof.
  unfold v4l2_device_check_media, ioctl_g_topology, av_mallocz_interfaces,
    av_freep, fd_node.
  repeat (case_match; simplify_eq; simpl in *);
    intros; simplify_eq; simpl; rewrite <- ?app_assoc; simpl;
    (split; [eexists; split; [reflexivity|done]|auto]).
Qed.

Lemma all_true_tail (l : list bool) :
  Forall (λ b, b = true) l → Forall (λ b, b = true) (tail l).
Proof. destruct l; [done|]. by inversion 1. Qed.

Lemma designates_b_spec vmaj vmin i :
  designates_b vmaj vmin i = true ↔ designates vmaj vmin i.
Proof.
  unfold designates_b, designates.
  rewrite !andb_true_iff, !Z.eqb_eq. done.
Qed.

Lemma passes_check_spec vmaj vmin path :
  passes_check os vmaj vmin path = true ↔
  ∃ g1 g2,
    nd_topology_count (os_node os path) = inr g1 ∧ g1 ≠ [] ∧
    nd_topology_fill (os_node os path) = inr g2 ∧
    (length g2 ≤ length g1)%nat ∧
    ∃ i, i ∈ g2 ∧ designates vmaj vmin i.
Proof.
  unfold passes_check. split.
  - destruct (nd_topology_count _) as [|g1]; [done|].
    destruct (nd_topology_fill _) as [|g2]; [done|].
    rewrite !andb_true_iff, negb_true_iff, bool_decide_eq_false,
      bool_decide_eq_true, existsb_exists.
    intros (Hne & Hlen & i & Hin & Hi). exists g1, g2.
    split_and!; try done. exists i.
    split; [by apply list_elem_of_In|by apply designates_b_spec].
  - intros (g1 & g2 & -> & Hne & -> & Hlen & i & Hin & Hi).
    rewrite !andb_true_iff, negb_true_iff, bool_decide_eq_false,
      bool_decide_eq_true, existsb_exists.
    split_and!; try done. exists i.
    split; [by apply list_elem_of_In|by apply designates_b_spec].
Qed.

(** With memory for the buffer, a node that passes the check is answered
    0, and its buffer is given back. *)
Lemma check_media_passes n path vmaj vmin w :
  w_fds w !! n = Some path →
  passes_check os vmaj vmin path = true →
  next_alloc w = true →
  ∃ w', v4l2_device_check_media os (Z.of_N n) vmaj vmin w = (0, w').
Proof.
  intros Hfd Hpass Halloc.
  apply passes_check_spec in Hpass
    as (g1 & g2 & Hg1 & Hne & Hg2 & Hlen & Hi).
  unfold v4l2_device_check_media, ioctl_g_topology, av_mallocz_interfaces.
  rewrite fd_node_of_N, Hfd. simpl. rewrite Hg1. simpl.
  assert ((Z.of_nat (length g1) <=? 0) = false) as ->.
  { apply Z.leb_gt. destruct g1; [done|simpl; lia]. }
  unfold next_alloc in Halloc. rewrite Halloc. simpl.
  rewrite fd_node_of_N. simpl. rewrite Hfd. simpl. rewrite Hg2.
  assert ((Z.of_nat (length g1) <? Z.of_nat (length g2)) = false) as ->.
  { apply Z.ltb_ge. lia. }
  simpl. rewrite take_filled.
  rewrite (scan_interfaces_found g2 vmaj vmin _ Hi). by eexists.
Qed.

End CheckMore.

(** X3.  On a descriptor that is open on [path], the check answers 0
    exactly when the node reports at least one interface, the buffer for
    the records is obtained, the graph then delivered has no more records
    than were reported, and one of the delivered records is of V4L video
    type with device numbers [video_major:video_minor]. *)
Theorem check_media_zero_iff `{Platform} (os : OS) n path vmaj vmin w :
  w_fds w !! n = Some path →
  (v4l2_device_check_media os (Z.of_N n) vmaj vmin w).1 = 0 ↔
  next_alloc w = true ∧
  ∃ g1 g2,
    nd_topology_count (os_node os path) = inr g1 ∧ g1 ≠ [] ∧
    nd_topology_fill (os_node os path) = inr g2 ∧
    (length g2 ≤ length g1)%nat ∧
    ∃ i, i ∈ g2 ∧
         intf_type i = MEDIA_INTF_T_V4L_VIDEO ∧
         devnode_major i = vmaj ∧ devnode_minor i = vmin.
Proof.
  intros Hfd. split.
  - destruct (v4l2_device_check_media _ _ _ _ _) as [r w'] eqn:Hcheck.
    simpl. intros ->.
    destruct (check_media_matched os n path vmaj vmin w w' Hfd Hcheck)
      as (g1 & g2 & Hg1 & Hne & Halloc & Hg2 & Hlen & Hi).
    split; [done|]. by exists g1, g2.
  - intros (Halloc & Hnode).
    apply (passes_check_spec os) in Hnode.
    destruct (check_media_passes os n path vmaj vmin w Hfd Hnode Halloc)
      as (w' & ->). done.
Qed.

Lemma check_media_zero_iff_witness :
  (v4l2_device_check_media (Example.dev (inr [])) 3 81 0
     {| w_fds := <[3%N := "/dev/media1"]> Example.stdio; w_errno := 0;
        w_alloc := []; w_trace := [] |}).1 = 0.
Proof.
  apply (check_media_zero_iff (Example.dev (inr [])) 3%N "/dev/media1" 81 0
           {| w_fds := <[3%N := "/dev/media1"]> Example.stdio; w_errno := 0;
              w_alloc := []; w_trace := [] |}).
  - vm_compute. reflexivity.
  - split; [reflexivity|].
    exists [Example.v4l_subdev 1 81 9; Example.v4l_video 2 81 0],
           [Example.v4l_subdev 1 81 9; Example.v4l_video 2 81 0].
    split; [vm_compute; reflexivity|]. split; [discriminate|].
    split; [vm_compute; reflexivity|]. split; [simpl; lia|].
    exists (Example.v4l_video 2 81 0).
    split; [by right; left|]. split_and!; reflexivity.
Defined.

(** X4.  Whatever the descriptor and the node behind it, the check answers
    0 or a negative code, leaves the descriptor table as it found it, opens
    nothing, reads no directory entry, and gives back every buffer it
    obtained before it returns. *)
Theorem check_media_is_self_contained `{Platform} (os : OS) fd vmaj vmin w :
  let '(r, w') := v4l2_device_check_media os fd vmaj vmin w in
  (r = 0 ∨ r < 0) ∧
  w_fds w' = w_fds w ∧
  ∃ t, w_trace w' = w_trace w ++ t ∧ heap_balance t = 0 ∧
       opened_paths t = [] ∧ readdir_entries t = [].
Proof.
  destruct (v4l2_device_check_media os fd vmaj vmin w) as [r w'] eqn:Hcheck.
  destruct (check_media_frame os _ _ _ _ _ _ Hcheck) as (Hfds & Hr & _).
  destruct (check_media_events os _ _ _ _ _ _ Hcheck) as [Ht _].
  done.
Qed.

(** ** Which entries are tried *)

Lemma N_of_ascii_inj (a b : Ascii.ascii) :
  Ascii.N_of_ascii a = Ascii.N_of_ascii b → a = b.
Proof.
  intros Heq. rewrite <- (Ascii.ascii_N_embedding a),
    <- (Ascii.ascii_N_embedding b). by rewrite Heq.
Qed.

(** [strncmp (s, p, strlen (p))] is 0 exactly when [s] starts with [p]. *)
Lemma strncmp_prefix (p d : string) :
  no_nul p →
  strncmp d p (String.length p) = 0 ↔ String.prefix p d = true.
Proof.
  revert d. induction p as [|c p IH]; intros d Hnul; simpl.
  { by destruct d. }
  destruct Hnul as [Hc Hnul].
  destruct d as [|c1 d]; simpl.
  - split; [|done]. intros Hz. exfalso. apply Hc.
    apply N_of_ascii_inj. simpl. lia.
  - destruct (Ascii.eqb_spec c1 c) as [->|Hne].
    + destruct (Ascii.eqb_spec c Ascii.zero) as [Hz|_]; [done|].
      destruct (Ascii.ascii_dec c c) as [_|?]; [|done]. by apply IH.
    + destruct (Ascii.ascii_dec c c1) as [->|_]; [done|].
      split; [|done]. intros Hz. exfalso. apply Hne.
      apply N_of_ascii_inj. lia.
Qed.

Lemma video_entry_prefix (d_name : string) :
  strncmp d_name "video" 5 = 0 ↔ String.prefix "video" d_name = true.
Proof. apply (strncmp_prefix "video" d_name). simpl. by split_and!. Qed.

Lemma media_entry_prefix (d_name : string) :
  strncmp d_name "media" 5 = 0 ↔ String.prefix "media" d_name = true.
Proof. apply (strncmp_prefix "media" d_name). simpl. by split_and!. Qed.

(** ** The resolver, call by call *)

Section ResolveMore.
Context `{Platform}.
Variable os : OS.
Variable statbuf : stat.

(** The only [open] a turn makes is a blocking one, on the path built from
    its entry, and only when the entry is named "media..."; a turn gives
    back every buffer it obtained. *)
Lemma retrieve_media_body_events d_name l w c w' :
  retrieve_media_body os statbuf d_name l w = (c, w') →
  (∃ t, w_trace w' = w_trace w ++ t ∧ heap_balance t = 0 ∧
        readdir_entries t = [] ∧
        Forall (λ pn, pn = (snprintf_dev PATH_MAX d_name, false) ∧
                      String.prefix "media" d_name = true)
               (opened_paths t)) ∧
  (w_alloc w' = w_alloc w ∨ w_alloc w' = tail (w_alloc w)).
Proof.
  rewrite retrieve_media_body_eq. cbv zeta. unfold media_candidate.
  destruct (strncmp d_name "media" 5 =? 0) eqn:Hcmp; simpl.
  2:{ intros [= <- <-]. split; [|by left]. exists []. by rewrite app_nil_r. }
  apply Z.eqb_eq, media_entry_prefix in Hcmp.
  destruct (nd_open _) as [e|].
  { intros [= <- <-]. simpl. split; [|by left]. eexists. split; [done|].
    simpl. split_and!; try done. by repeat constructor. }
  destruct (nd_device_info _) as [e|i].
  { intros [= <- <-]. simpl. split; [|by left]. eexists. split; [done|].
    simpl. split_and!; try done. by repeat constructor. }
  destruct (v4l2_device_check_media _ _ _ _ _) as [ret w2] eqn:Hcheck.
  apply check_media_events in Hcheck
    as [(t & Ht & Hbal & Hopen & Hrd) Halloc].
  simpl in Ht, Halloc.
  destruct (ret =? 0); intros [= <- <-]; simpl; (split; [|done]);
    rewrite Ht, <- ?app_assoc; (eexists; split; [reflexivity|]);
    simpl; rewrite ?heap_balance_app, ?opened_paths_app,
      ?readdir_entries_app, Hbal, Hopen, Hrd; simpl;
    (split_and!; try done; by repeat constructor).
Qed.

Lemma retrieve_media_loop_events entries l w l' w' :
  retrieve_media_loop os statbuf entries l w = (l', w') →
  (∃ t, w_trace w' = w_trace w ++ t ∧ heap_balance t = 0 ∧
        Forall (λ pn, pn.2 = false ∧
                      ∃ d_name, d_name ∈ entries ∧
                                String.prefix "media" d_name = true ∧
                                pn.1 = snprintf_dev PATH_MAX d_name)
               (opened_paths t)) ∧
  (Forall (λ b, b = true) (w_alloc w) → Forall (λ b, b = true) (w_alloc w')).
Proof.
  revert l w. induction entries as [|d rest IH]; intros l w; simpl.
  { intros [= <- <-]. simpl. split; [|done]. eexists. split; [done|].
    by split. }
  destruct (retrieve_media_body os statbuf d l (emit (EvReaddir (Some d)) w))
    as [c w1] eqn:Hbody.
  apply retrieve_media_body_events in Hbody
    as [(t1 & Ht1 & Hbal1 & _ & Hopen1) Halloc1].
  simpl in Ht1, Halloc1.
  assert (Forall (λ b, b = true) (w_alloc w) →
          Forall (λ b, b = true) (w_alloc w1)) as Htrue1.
  { destruct Halloc1 as [-> | ->]; [done|apply all_true_tail]. }
  assert (Forall (λ pn : string * bool,
            pn.2 = false ∧
            ∃ d_name, d_name ∈ d :: rest ∧
                      String.prefix "media" d_name = true ∧
                      pn.1 = snprintf_dev PATH_MAX d_name)
            (opened_paths t1)) as Hopen1'.
  { eapply Forall_impl; [exact Hopen1|]. intros [p nb] [[= -> ->] Hpre].
    split; [done|]. exists d. split; [by left|done]. }
  destruct c as [l1|l1].
  - intros Hloop. apply IH in Hloop as [(t & Ht & Hbal & Hopen) Htrue].
    split; [|auto].
    exists ([EvReaddir (Some d)] ++ t1 ++ t).
    rewrite Ht, Ht1, <- !app_assoc. split; [done|].
    rewrite !heap_balance_app, !opened_paths_app, Hbal, Hbal1. simpl.
    split; [done|]. apply Forall_app. split; [done|].
    eapply Forall_impl; [exact Hopen|].
    intros pn (Hnb & d' & Hin & Hpre & Hp). split; [done|].
    exists d'. split; [by right|done].
  - intros [= <- <-]. split; [|done].
    exists ([EvReaddir (Some d)] ++ t1).
    rewrite Ht1, <- !app_assoc. split; [done|].
    rewrite !heap_balance_app, !opened_paths_app, Hbal1. simpl.
    by split.
Qed.

End ResolveMore.

(** X5.  Whatever its outcome, a call of the resolver closes none of the
    descriptors that were open when it started: each of them is still open
    on the same path when the call returns, and the descriptor number of
    the input video device designates the same node as before. *)
Theorem retrieve_media_keeps_callers_descriptors `{Platform} (os : OS)
  video_device media_device w :
  let '(r, out, w') :=
    ff_v4l2_device_retrieve_media os video_device media_device w in
  w_fds w ⊆ w_fds w' ∧
  fd_node os (video_fd video_device) w' = fd_node os (video_fd video_device) w.
Proof.
  unfold ff_v4l2_device_retrieve_media.
  destruct (sys_fstat_cases os (video_fd video_device) zero_stat w)
    as [(e & -> & _)|(nd & s & Hnode & _ & ->)]; [done|].
  simpl. destruct (os_dev os) as [e|entries] eqn:Hdev.
  { by rewrite (sys_opendir_failed os _ e Hdev). }
  rewrite (sys_opendir_succeeded os _ entries Hdev). cbn [dd_entries].
  destruct (retrieve_media_loop _ _ _ _ _) as [l' w2] eqn:Hloop.
  apply retrieve_media_loop_result in Hloop as [Hsub _];
    [|apply AVERROR_neg].
  simpl in Hsub.
  assert (w_fds w ⊆ delete (lowest_fd (w_fds w)) (w_fds w2)) as Hkeep.
  { apply map_subseteq_spec. intros k p Hk.
    assert (k ≠ lowest_fd (w_fds w)) as Hne.
    { intros ->. by rewrite lowest_fd_fresh in Hk. }
    rewrite lookup_delete_ne by done.
    eapply lookup_weaken; [|exact Hsub].
    unfold enumeration_fds. by rewrite lookup_insert_ne. }
  assert (∀ w3, w_fds w3 = delete (lowest_fd (w_fds w)) (w_fds w2) →
                fd_node os (video_fd video_device) w3 = Some nd) as Hsame.
  { intros w3 Hw3. unfold fd_node in *.
    destruct (decide (0 ≤ video_fd video_device)); [|done].
    destruct (w_fds w !! Z.to_N (video_fd video_device)) as [p|] eqn:Hp;
      [|done].
    by rewrite Hw3, (lookup_weaken _ _ _ _ Hp Hkeep). }
  destruct (ml_ret l' <? 0); simpl; (split; [done|]);
    rewrite Hnode; by apply Hsame.
Qed.

(** X6.  The [open] calls of a resolver call are all blocking, and each is
    on the path "/dev/<name>" of a directory entry whose name starts with
    "media"; when the call returns, every buffer it obtained from
    [av_mallocz] has been given back. *)
Theorem retrieve_media_opens_only_media_nodes `{Platform} (os : OS)
  video_device media_device w :
  let '(r, out, w') :=
    ff_v4l2_device_retrieve_media os video_device media_device w in
  ∃ t, w_trace w' = w_trace w ++ t ∧
       heap_balance t = 0 ∧
       Forall (λ pn, pn.2 = false ∧
                     ∃ entries d_name,
                       os_dev os = inr entries ∧ d_name ∈ entries ∧
                       String.prefix "media" d_name = true ∧
                       pn.1 = snprintf_dev PATH_MAX d_name)
              (opened_paths t).
Proof.
  unfold ff_v4l2_device_retrieve_media.
  destruct (sys_fstat_cases os (video_fd video_device) zero_stat w)
    as [(e & -> & _)|(nd & s & Hnode & _ & ->)].
  { simpl. eexists. split; [done|]. by split. }
  simpl. destruct (os_dev os) as [e|entries] eqn:Hdev.
  { rewrite (sys_opendir_failed os _ e Hdev). simpl.
    rewrite <- app_assoc. eexists. split; [done|]. by split. }
  rewrite (sys_opendir_succeeded os _ entries Hdev). cbn [dd_entries].
  destruct (retrieve_media_loop _ _ _ _ _) as [l' w2] eqn:Hloop.
  apply retrieve_media_loop_events in Hloop as [(t & Ht & Hbal & Hopen) _].
  simpl in Ht.
  destruct (ml_ret l' <? 0); unfold sys_closedir; simpl;
    rewrite Ht, <- !app_assoc; (eexists; split; [reflexivity|]); simpl;
    rewrite !heap_balance_app, !opened_paths_app, Hbal; simpl;
    (split; [done|]); rewrite app_nil_r;
    (eapply Forall_impl; [exact Hopen|]);
    intros pn (Hnb & d & Hin & Hpre & Hp); (split; [done|]);
    by exists entries, d.
Qed.

(** ** The prober, call by call *)

Section ProbeMore.
Context `{Platform}.
Variable os : OS.
Variable checkdev : V4L2DeviceVideo → bool.

Lemma probe_video_body_events d_name l w c w' :
  probe_video_body os checkdev d_name l w = (c, w') →
  ∃ t, w_trace w' = w_trace w ++ t ∧ heap_balance t = 0 ∧
       Forall (λ pn, pn = (snprintf_dev PATH_MAX d_name, true) ∧
                     String.prefix "video" d_name = true)
              (opened_paths t).
Proof.
  rewrite probe_video_body_eq. cbv zeta. unfold probe_candidate.
  destruct (strncmp d_name "video" 5 =? 0) eqn:Hcmp; simpl.
  2:{ intros [= <- <-]. exists []. by rewrite app_nil_r. }
  apply Z.eqb_eq, video_entry_prefix in Hcmp.
  destruct (nd_open _) as [e|];
    [|destruct (nd_querycap _) as [e|cap]; [|destruct (checkdev _)]];
    intros [= <- <-]; simpl; (eexists; split; [done|]); simpl;
    (split; [done|]); by repeat constructor.
Qed.

Lemma probe_video_loop_events entries l w l' w' :
  probe_video_loop os checkdev entries l w = (l', w') →
  ∃ t, w_trace w' = w_trace w ++ t ∧ heap_balance t = 0 ∧
       Forall (λ pn, pn.2 = true ∧
                     ∃ d_name, d_name ∈ entries ∧
                               String.prefix "video" d_name = true ∧
                               pn.1 = snprintf_dev PATH_MAX d_name)
              (opened_paths t).
Proof.
  revert l w. induction entries as [|d rest IH]; intros l w; simpl.
  { intros [= <- <-]. simpl. eexists. split; [done|]. by split. }
  destruct (probe_video_body os checkdev d l (emit (EvReaddir (Some d)) w))
    as [c w1] eqn:Hbody.
  apply probe_video_body_events in Hbody as (t1 & Ht1 & Hbal1 & Hopen1).
  simpl in Ht1.
  assert (Forall (λ pn : string * bool,
            pn.2 = true ∧
            ∃ d_name, d_name ∈ d :: rest ∧
                      String.prefix "video" d_name = true ∧
                      pn.1 = snprintf_dev PATH_MAX d_name)
            (opened_paths t1)) as Hopen1'.
  { eapply Forall_impl; [exact Hopen1|]. intros [p nb] [[= -> ->] Hpre].
    split; [done|]. exists d. split; [by left|done]. }
  destruct c as [l1|l1].
  - intros Hloop. apply IH in Hloop as (t & Ht & Hbal & Hopen).
    exists ([EvReaddir (Some d)] ++ t1 ++ t).
    rewrite Ht, Ht1, <- !app_assoc. split; [done|].
    rewrite !heap_balance_app, !opened_paths_app, Hbal, Hbal1. simpl.
    split; [done|]. apply Forall_app. split; [done|].
    eapply Forall_impl; [exact Hopen|].
    intros pn (Hnb & d' & Hin & Hpre & Hp). split; [done|].
    exists d'. split; [by right|done].
  - intros [= <- <-].
    exists ([EvReaddir (Some d)] ++ t1).
    rewrite Ht1, <- !app_assoc. split; [done|].
    rewrite !heap_balance_app, !opened_paths_app, Hbal1. simpl.
    by split.
Qed.

End ProbeMore.

(** X7.  The [open] calls of a prober call are all non-blocking, and each
    is on the path "/dev/<name>" of a directory entry whose name starts
    with "video": no other node is ever opened. *)
Theorem probe_video_opens_only_video_nodes `{Platform} (os : OS) checkdev
  device w :
  let '(r, out, w') := ff_v4l2_device_probe_video os device checkdev w in
  ∃ t, w_trace w' = w_trace w ++ t ∧
       Forall (λ pn, pn.2 = true ∧
                     ∃ entries d_name,
                       os_dev os = inr entries ∧ d_name ∈ entries ∧
                       String.prefix "video" d_name = true ∧
                       pn.1 = snprintf_dev PATH_MAX d_name)
              (opened_paths t).
Proof.
  unfold ff_v4l2_device_probe_video.
  destruct (os_dev os) as [e|entries] eqn:Hdev.
  { rewrite (sys_opendir_failed os _ e Hdev). simpl.
    eexists. split; [done|]. done. }
  rewrite (sys_opendir_succeeded os _ entries Hdev). cbn [dd_entries].
  destruct (probe_video_loop _ _ _ _ _) as [l' w2] eqn:Hloop.
  apply probe_video_loop_events in Hloop as (t & Ht & _ & Hopen).
  simpl in Ht.
  destruct (pl_ret l' <? 0); unfold sys_closedir; simpl;
    rewrite Ht, <- !app_assoc; (eexists; split; [reflexivity|]); simpl;
    rewrite !opened_paths_app; simpl; rewrite app_nil_r;
    (eapply Forall_impl; [exact Hopen|]);
    intros pn (Hnb & d & Hin & Hpre & Hp); (split; [done|]);
    by exists entries, d.
Qed.

(** ** Which controller the resolver hands back *)

Section ResolveFirst.
Context `{Platform}.
Variable os : OS.
Variable statbuf : stat.

Lemma all_true_next_alloc w :
  Forall (λ b, b = true) (w_alloc w) → next_alloc w = true.
Proof. unfold next_alloc. destruct (w_alloc w); [done|]. by inversion 1. Qed.

Lemma controller_of_Some vmaj vmin d_name path info :
  controller_of os vmaj vmin d_name = Some (path, info) →
  media_candidate os d_name = MediaOpened info ∧
  path = snprintf_dev PATH_MAX d_name ∧
  passes_check os vmaj vmin path = true.
Proof.
  unfold controller_of.
  destruct (media_candidate os d_name) as [| | |i]; try done.
  destruct (passes_check _ _ _ _) eqn:Hpass; [|done].
  by intros [= <- <-].
Qed.

Lemma first_controller_split vmaj vmin entries c :
  first_controller os vmaj vmin entries = Some c →
  ∃ pre d_name post,
    entries = pre ++ d_name :: post ∧
    Forall (λ d, controller_of os vmaj vmin d = None) pre ∧
    controller_of os vmaj vmin d_name = Some c.
Proof.
  induction entries as [|d rest IH]; simpl; [done|].
  destruct (controller_of os vmaj vmin d) as [c'|] eqn:Hd.
  - intros [= <-]. by exists [], d, rest.
  - intros Hrest. destruct (IH Hrest) as (pre & d' & post & -> & Hpre & Hc).
    exists (d :: pre), d', post. split; [done|]. split; [|done].
    by constructor.
Qed.

Lemma first_controller_none vmaj vmin entries :
  first_controller os vmaj vmin entries = None →
  Forall (λ d, controller_of os vmaj vmin d = None) entries.
Proof.
  induction entries as [|d rest IH]; simpl; [done|].
  destruct (controller_of os vmaj vmin d) eqn:Hd; [done|].
  intros Hrest. constructor; auto.
Qed.

(** A turn on a controller of the device, with memory for its buffer, ends
    in [break]. *)
Lemma retrieve_media_body_controller d_name l w path info :
  controller_of os (major (st_rdev statbuf)) (minor (st_rdev statbuf)) d_name
    = Some (path, info) →
  next_alloc w = true →
  ∃ w',
    retrieve_media_body os statbuf d_name l w =
      (Break {| ml_fd := Z.of_N (lowest_fd (w_fds w)); ml_ret := 0;
                ml_devname := path; ml_info := info |}, w') ∧
    w_fds w' = <[lowest_fd (w_fds w) := path]> (w_fds w).
Proof.
  intros Hctl Halloc.
  apply controller_of_Some in Hctl as (Hcand & -> & Hpass).
  rewrite retrieve_media_body_eq. cbv zeta. rewrite Hcand.
  match goal with
  | |- context [v4l2_device_check_media os ?fd ?a ?b ?w1] =>
      destruct (check_media_passes os (lowest_fd (w_fds w))
                  (snprintf_dev PATH_MAX d_name) a b w1) as (w2 & Hcheck);
      [simpl; apply lookup_insert_eq|done|done|];
      pose proof (check_media_frame os _ _ _ _ _ _ Hcheck) as (Hfds & _ & _)
  end.
  rewrite Hcheck. simpl. by exists w2.
Qed.

(** A turn on any other entry ends in [continue]. *)
Lemma retrieve_media_body_not_controller d_name l w :
  controller_of os (major (st_rdev statbuf)) (minor (st_rdev statbuf)) d_name
    = None →
  ∃ l1 w1, retrieve_media_body os statbuf d_name l w = (Continue l1, w1).
Proof.
  intros Hctl.
  destruct (retrieve_media_body os statbuf d_name l w) as [[l1|l1] w1]
    eqn:Hbody; [by eexists _, _|exfalso].
  revert Hbody. rewrite retrieve_media_body_eq. cbv zeta.
  unfold controller_of in Hctl.
  destruct (media_candidate os d_name) as [|e|e|info]; try done.
  destruct (v4l2_device_check_media _ _ _ _ _) as [ret w2] eqn:Hcheck.
  destruct (ret =? 0) eqn:Hret; [|done]. apply Z.eqb_eq in Hret as ->.
  apply check_media_matched with (path := snprintf_dev PATH_MAX d_name)
    in Hcheck as (g1 & g2 & Hg1 & Hne & _ & Hg2 & Hlen & Hi);
    [|simpl; apply lookup_insert_eq].
  assert (passes_check os (major (st_rdev statbuf)) (minor (st_rdev statbuf))
            (snprintf_dev PATH_MAX d_name) = true) as Hpass.
  { apply passes_check_spec. by exists g1, g2. }
  by rewrite Hpass in Hctl.
Qed.

(** Turns on entries that are not controllers of the device take the loop
    to the end of the directory, with an error in [ret]. *)
Lemma retrieve_media_loop_no_controller entries l w :
  Forall (λ d, controller_of os (major (st_rdev statbuf))
                 (minor (st_rdev statbuf)) d = None) entries →
  ml_ret l < 0 →
  ∃ l' w',
    retrieve_media_loop os statbuf entries l w = (l', w') ∧
    ml_ret l' < 0 ∧
    readdir_entries (w_trace w') =
      readdir_entries (w_trace w) ++ (Some <$> entries) ++ [None].
Proof.
  revert l w. induction entries as [|d rest IH]; intros l w Hall Hneg.
  { eexists _, _. split; [reflexivity|]. split; [done|]. simpl.
    by rewrite readdir_entries_app. }
  apply Forall_cons in Hall as [Hd Hrest]. cbn [retrieve_media_loop].
  destruct (retrieve_media_body_not_controller d l
              (emit (EvReaddir (Some d)) w) Hd) as (l1 & w1 & Hbody).
  rewrite Hbody.
  destruct (retrieve_media_body_continue _ _ _ _ _ _ _ Hbody Hneg)
    as [Hneg1 _].
  destruct (retrieve_media_body_events _ _ _ _ _ _ _ Hbody)
    as [(t & Ht & _ & Hrd & _) _].
  destruct (IH l1 w1 Hrest Hneg1) as (l' & w' & -> & Hneg' & Hrd').
  exists l', w'. split; [done|]. split; [done|].
  rewrite Hrd', Ht. simpl. rewrite !readdir_entries_app, Hrd. simpl.
  by rewrite app_nil_r, <- app_assoc.
Qed.

(** When every allocation succeeds, the loop stops at the first controller
    of the device. *)
Lemma retrieve_media_loop_first_controller pre c post l w path info :
  Forall (λ d, controller_of os (major (st_rdev statbuf))
                 (minor (st_rdev statbuf)) d = None) pre →
  controller_of os (major (st_rdev statbuf)) (minor (st_rdev statbuf)) c
    = Some (path, info) →
  Forall (λ b, b = true) (w_alloc w) →
  ml_ret l < 0 →
  ∃ fd w',
    retrieve_media_loop os statbuf (pre ++ c :: post) l w =
      ({| ml_fd := Z.of_N fd; ml_ret := 0; ml_devname := path;
          ml_info := info |}, w') ∧
    w_fds w !! fd = None ∧
    w_fds w' !! fd = Some path ∧
    readdir_entries (w_trace w') =
      readdir_entries (w_trace w) ++ (Some <$> pre) ++ [Some c].
Proof.
  revert l w. induction pre as [|d pre IH]; intros l w Hpre Hc Halloc Hneg.
  - simpl.
    destruct (retrieve_media_body_controller c l
                (emit (EvReaddir (Some c)) w) path info Hc
                (all_true_next_alloc _ Halloc)) as (w' & Hbody & Hfds).
    rewrite Hbody.
    destruct (retrieve_media_body_events _ _ _ _ _ _ _ Hbody)
      as [(t & Ht & _ & Hrd & _) _].
    exists (lowest_fd (w_fds w)), w'. simpl in Hfds |- *.
    split; [done|]. split; [apply lowest_fd_fresh|].
    split; [by rewrite Hfds, lookup_insert_eq|].
    rewrite Ht. simpl. rewrite !readdir_entries_app, Hrd. simpl.
    by rewrite app_nil_r.
  - apply Forall_cons in Hpre as [Hd Hpre]. cbn [app retrieve_media_loop].
    destruct (retrieve_media_body_not_controller d l
                (emit (EvReaddir (Some d)) w) Hd) as (l1 & w1 & Hbody).
    rewrite Hbody.
    destruct (retrieve_media_body_continue _ _ _ _ _ _ _ Hbody Hneg)
      as [Hneg1 Hsub1].
    destruct (retrieve_media_body_events _ _ _ _ _ _ _ Hbody)
      as [(t & Ht & _ & Hrd & _) Hal1].
    simpl in Hsub1, Hal1.
    assert (Forall (λ b, b = true) (w_alloc w1)) as Halloc1.
    { destruct Hal1 as [-> | ->]; [done|by apply all_true_tail]. }
    destruct (IH l1 w1 Hpre Hc Halloc1 Hneg1)
      as (fd & w' & -> & Hfresh & Hopen & Hrd').
    exists fd, w'. split; [done|]. split.
    { destruct (w_fds w !! fd) eqn:Hw; [|done].
      eapply lookup_weaken in Hw; [|exact Hsub1]. congruence. }
    split; [done|].
    rewrite Hrd', Ht. simpl. rewrite !readdir_entries_app, Hrd. simpl.
    by rewrite app_nil_r, <- app_assoc.
Qed.

End ResolveFirst.

(** Closing the directory gives back the table of the caller, and keeps
    whatever the enumeration added to it. *)
Lemma closedir_keeps (w : World) (m2 : gmap N string) :
  enumeration_fds w ⊆ m2 → w_fds w ⊆ delete (lowest_fd (w_fds w)) m2.
Proof.
  intros Hsub. apply map_subseteq_spec. intros k p Hk.
  assert (k ≠ lowest_fd (w_fds w)) as Hne.
  { intros ->. by rewrite lowest_fd_fresh in Hk. }
  rewrite lookup_delete_ne by done.
  eapply lookup_weaken; [|exact Hsub].
  unfold enumeration_fds. by rewrite lookup_insert_ne.
Qed.

Lemma fd_node_weaken `{Platform} (os : OS) fd (w w' : World) nd :
  w_fds w ⊆ w_fds w' → fd_node os fd w = Some nd → fd_node os fd w' = Some nd.
Proof.
  intros Hsub. unfold fd_node. destruct (decide (0 ≤ fd)); [|done].
  destruct (w_fds w !! Z.to_N fd) as [p|] eqn:Hp; [|done].
  by rewrite (lookup_weaken _ _ _ _ Hp Hsub).
Qed.

Section ResolveCalls.
Context `{Platform}.
Variable os : OS.

Lemma retrieve_media_call_found video_device media_device w nd s
  pre c post path info :
  fd_node os (video_fd video_device) w = Some nd →
  nd_stat nd = inr s →
  os_dev os = inr (pre ++ c :: post) →
  Forall (λ d, controller_of os (major (st_rdev s)) (minor (st_rdev s)) d
               = None) pre →
  controller_of os (major (st_rdev s)) (minor (st_rdev s)) c
    = Some (path, info) →
  Forall (λ b, b = true) (w_alloc w) →
  ∃ fd w',
    ff_v4l2_device_retrieve_media os video_device media_device w =
      (0, {| media_devname := path; media_fd := Z.of_N fd;
             media_info := info |}, w') ∧
    w_fds w !! fd = None ∧
    w_fds w' !! fd = Some path ∧
    w_fds w ⊆ w_fds w' ∧
    Forall (λ b, b = true) (w_alloc w') ∧
    readdir_entries (w_trace w') =
      readdir_entries (w_trace w) ++ (Some <$> pre) ++ [Some c].
Proof.
  intros Hnode Hstat Hdev Hpre Hc Halloc.
  unfold ff_v4l2_device_retrieve_media, sys_fstat.
  rewrite Hnode, Hstat. simpl.
  rewrite (sys_opendir_succeeded os _ _ Hdev). cbn [dd_entries].
  match goal with
  | |- context [retrieve_media_loop os s _ ?l0 ?w0] =>
      destruct (retrieve_media_loop_first_controller os s pre c post l0 w0
                  path info Hpre Hc Halloc (AVERROR_neg _))
        as (fd & w2 & Hloop & Hfresh & Hopen & Hrd);
      pose proof (retrieve_media_loop_events os s _ _ _ _ _ Hloop)
        as [_ Htrue];
      pose proof (retrieve_media_loop_result os s _ _ _ _ _ Hloop
                    (AVERROR_neg _)) as [Hsub _]
  end.
  rewrite Hloop. simpl in Hfresh, Hrd, Htrue, Hsub |- *.
  unfold enumeration_fds in Hfresh.
  apply lookup_insert_None in Hfresh as [Hfresh Hne].
  exists fd. eexists. split; [reflexivity|]. simpl.
  split; [done|]. split; [by rewrite lookup_delete_ne|].
  split; [by apply closedir_keeps|].
  split; [by apply Htrue|].
  rewrite !readdir_entries_app, Hrd, !readdir_entries_app. simpl.
  by rewrite !app_nil_r.
Qed.

Lemma retrieve_media_call_none video_device media_device w nd s entries :
  fd_node os (video_fd video_device) w = Some nd →
  nd_stat nd = inr s →
  os_dev os = inr entries →
  Forall (λ d, controller_of os (major (st_rdev s)) (minor (st_rdev s)) d
               = None) entries →
  ∃ r w',
    ff_v4l2_device_retrieve_media os video_device media_device w =
      (r, media_device, w') ∧
    r < 0 ∧
    readdir_entries (w_trace w') =
      readdir_entries (w_trace w) ++ (Some <$> entries) ++ [None].
Proof.
  intros Hnode Hstat Hdev Hall.
  unfold ff_v4l2_device_retrieve_media, sys_fstat.
  rewrite Hnode, Hstat. simpl.
  rewrite (sys_opendir_succeeded os _ _ Hdev). cbn [dd_entries].
  match goal with
  | |- context [retrieve_media_loop os s _ ?l0 ?w0] =>
      destruct (retrieve_media_loop_no_controller os s entries l0 w0
                  Hall (AVERROR_neg _))
        as (l' & w2 & Hloop & Hneg & Hrd)
  end.
  rewrite Hloop. apply Z.ltb_lt in Hneg as Hlt. rewrite Hlt.
  eexists _, _. split; [reflexivity|]. split; [done|].
  simpl in Hrd |- *.
  rewrite !readdir_entries_app, Hrd, !readdir_entries_app. simpl.
  by rewrite !app_nil_r.
Qed.

End ResolveCalls.

(** X8.  When the identity query and [opendir] succeed and every
    allocation succeeds, the resolver answers 0 with the first entry of
    the directory, in the order [readdir] delivers them, that is a media
    controller of the video device: the handle carries the path and the
    info record of that entry on a descriptor that was not open before,
    and no entry behind it is read. *)
Theorem retrieve_media_finds_first_controller `{Platform} (os : OS)
  video_device media_device w nd s entries path info :
  fd_node os (video_fd video_device) w = Some nd →
  nd_stat nd = inr s →
  os_dev os = inr entries →
  Forall (λ b, b = true) (w_alloc w) →
  first_controller os (major (st_rdev s)) (minor (st_rdev s)) entries
    = Some (path, info) →
  ∃ fd w' pre c post,
    ff_v4l2_device_retrieve_media os video_device media_device w =
      (0, {| media_devname := path; media_fd := Z.of_N fd;
             media_info := info |}, w') ∧
    w_fds w !! fd = None ∧
    w_fds w' !! fd = Some path ∧
    entries = pre ++ c :: post ∧
    path = snprintf_dev PATH_MAX c ∧
    Forall (λ d, controller_of os (major (st_rdev s)) (minor (st_rdev s)) d
                 = None) pre ∧
    readdir_entries (w_trace w') =
      readdir_entries (w_trace w) ++ (Some <$> pre) ++ [Some c].
Proof.
  intros Hnode Hstat Hdev Halloc Hfirst.
  apply first_controller_split in Hfirst
    as (pre & c & post & -> & Hpre & Hc).
  destruct (retrieve_media_call_found os video_device media_device w nd s
              pre c post path info Hnode Hstat Hdev Hpre Hc Halloc)
    as (fd & w' & Hcall & Hfresh & Hopen & _ & _ & Hrd).
  apply controller_of_Some in Hc as (_ & Hpath & _).
  by exists fd, w', pre, c, post.
Qed.

Lemma retrieve_media_finds_first_controller_witness :
  ∃ fd w',
    ff_v4l2_device_retrieve_media
      (Example.dev (inr ["video0"; "media2"; "media0"; "media1"; "media0"]))
      Example.video0 Example.stale_media (Example.holding_video0 [])
    = (0, {| media_devname := "/dev/media1"; media_fd := Z.of_N fd;
             media_info := Example.controller |}, w') ∧
    readdir_entries (w_trace w') =
      [Some "video0"; Some "media2"; Some "media0"; Some "media1"].
Proof.
  destruct (retrieve_media_finds_first_controller
              (Example.dev (inr ["video0"; "media2"; "media0"; "media1";
                                 "media0"]))
              Example.video0 Example.stale_media (Example.holding_video0 [])
              (Example.video_node 81 0)
              {| st_dev := 6; st_rdev := gnu_dev_makedev 81 0 |}
              ["video0"; "media2"; "media0"; "media1"; "media0"]
              "/dev/media1" Example.controller)
    as (fd & w' & pre & c & post & Hcall & _ & _ & Hsplit & _ & _ & Hrd);
    [vm_compute; reflexivity | reflexivity | reflexivity | constructor
    | vm_compute; reflexivity |].
  exists fd, w'. split; [exact Hcall|].
  vm_compute in Hcall. injection Hcall as _ <-. vm_compute. reflexivity.
Defined.

(** X9.  When the identity query and [opendir] succeed but no entry of the
    directory is a media controller of the video device, the resolver
    reads the directory to its end and fails with a negative code,
    whatever the allocator does; the caller's record is not written. *)
Theorem retrieve_media_without_controller_fails `{Platform} (os : OS)
  video_device media_device w nd s entries :
  fd_node os (video_fd video_device) w = Some nd →
  nd_stat nd = inr s →
  os_dev os = inr entries →
  first_controller os (major (st_rdev s)) (minor (st_rdev s)) entries = None →
  ∃ r w',
    ff_v4l2_device_retrieve_media os video_device media_device w =
      (r, media_device, w') ∧
    r < 0 ∧
    readdir_entries (w_trace w') =
      readdir_entries (w_trace w) ++ (Some <$> entries) ++ [None].
Proof.
  intros Hnode Hstat Hdev Hnone.
  apply first_controller_none in Hnone.
  by apply (retrieve_media_call_none os video_device media_device w nd s).
Qed.

Lemma retrieve_media_without_controller_fails_witness :
  ∃ r w',
    ff_v4l2_device_retrieve_media
      (Example.dev (inr ["media0"; "mediaX"; "media2"]))
      Example.video0 Example.stale_media (Example.holding_video0 [false])
    = (r, Example.stale_media, w') ∧
    r < 0 ∧
    readdir_entries (w_trace w') =
      [Some "media0"; Some "mediaX"; Some "media2"; None].
Proof.
  apply (retrieve_media_without_controller_fails
           (Example.dev (inr ["media0"; "mediaX"; "media2"]))
           Example.video0 Example.stale_media (Example.holding_video0 [false])
           (Example.video_node 81 0)
           {| st_dev := 6; st_rdev := gnu_dev_makedev 81 0 |}
           ["media0"; "mediaX"; "media2"]);
    vm_compute; reflexivity.
Defined.

(** X10.  A second call of the resolver on the same video device, made in
    the world the first successful call left behind, answers 0 with the
    same controller path and info record on a different descriptor,
    provided no allocation fails. *)
Theorem retrieve_media_twice_same_controller `{Platform} (os : OS)
  video_device media_device media_device' w out w1 :
  ff_v4l2_device_retrieve_media os video_device media_device w
    = (0, out, w1) →
  Forall (λ b, b = true) (w_alloc w) →
  ∃ fd w2,
    ff_v4l2_device_retrieve_media os video_device media_device' w1 =
      (0, {| media_devname := media_devname out; media_fd := Z.of_N fd;
             media_info := media_info out |}, w2) ∧
    Z.of_N fd ≠ media_fd out ∧
    w_fds w2 !! Z.to_N (media_fd out) = Some (media_devname out).
Proof.
  intros Hcall Halloc.
  pose proof (retrieve_media_success os _ _ _ _ _ Hcall)
    as (nd & s & entries & d & fd1 & Hnode & Hstat & Hdev & _ & _ & _ & Hfd1
        & _ & _ & _).
  destruct (first_controller os (major (st_rdev s)) (minor (st_rdev s))
              entries) as [[path info]|] eqn:Hfirst.
  2:{ apply first_controller_none in Hfirst.
      destruct (retrieve_media_call_none os video_device media_device w nd s
                  entries Hnode Hstat Hdev Hfirst) as (r & w' & Heq & Hr & _).
      rewrite Heq in Hcall. injection Hcall as -> _ _. lia. }
  apply first_controller_split in Hfirst
    as (pre & c & post & -> & Hpre & Hc).
  destruct (retrieve_media_call_found os video_device media_device w nd s
              pre c post path info Hnode Hstat Hdev Hpre Hc Halloc)
    as (fd & w' & Heq & Hfresh & Hopen & Hsub1 & Halloc1 & _).
  rewrite Heq in Hcall. injection Hcall as <- <-. simpl.
  pose proof (fd_node_weaken os _ _ _ _ Hsub1 Hnode) as Hnode1.
  destruct (retrieve_media_call_found os video_device media_device' w' nd s
              pre c post path info Hnode1 Hstat Hdev Hpre Hc Halloc1)
    as (fd2 & w2 & Heq2 & Hfresh2 & _ & Hsub2 & _).
  exists fd2, w2. split; [done|]. split.
  - intros Hsame. apply N2Z.inj in Hsame. subst fd2. congruence.
  - rewrite N2Z.id. by apply (lookup_weaken _ _ _ _ Hopen Hsub2).
Qed.

Lemma retrieve_media_twice_same_controller_witness :
  ∃ fd w2,
    ff_v4l2_device_retrieve_media (Example.dev (inr ["media0"; "media1"]))
      Example.video0 Example.stale_media
      {| w_fds := <[6%N := "/dev/media1"]>
                    (<[5%N := "/dev/media0"]>
                       (<[3%N := "/dev/video0"]> Example.stdio));
         w_errno := 9;
         w_alloc := [];
         w_trace :=
           [EvFstat 3 0; EvOpendir (Some 4%N);
            EvReaddir (Some "media0"); EvOpen "/dev/media0" false 5;
            EvDeviceInfo 5 0; EvTopology 5 false 0; EvAlloc 3 true;
            EvTopology 5 true 0; EvFree; EvClose (-22) (-1);
            EvReaddir (Some "media1"); EvOpen "/dev/media1" false 6;
            EvDeviceInfo 6 0; EvTopology 6 false 0; EvAlloc 2 true;
            EvTopology 6 true 0; EvFree; EvClosedir 4] |}
    = (0, {| media_devname := "/dev/media1"; media_fd := Z.of_N fd;
             media_info := Example.controller |}, w2) ∧
    Z.of_N fd ≠ 6.
Proof.
  destruct (retrieve_media_twice_same_controller
              (Example.dev (inr ["media0"; "media1"]))
              Example.video0 Example.stale_media Example.stale_media
              (Example.holding_video0 [])
              {| media_devname := "/dev/media1"; media_fd := 6;
                 media_info := Example.controller |}
              {| w_fds := <[6%N := "/dev/media1"]>
                            (<[5%N := "/dev/media0"]>
                               (<[3%N := "/dev/video0"]> Example.stdio));
                 w_errno := 9;
                 w_alloc := [];
                 w_trace :=
                   [EvFstat 3 0; EvOpendir (Some 4%N);
                    EvReaddir (Some "media0"); EvOpen "/dev/media0" false 5;
                    EvDeviceInfo 5 0; EvTopology 5 false 0; EvAlloc 3 true;
                    EvTopology 5 true 0; EvFree; EvClose (-22) (-1);
                    EvReaddir (Some "media1"); EvOpen "/dev/media1" false 6;
                    EvDeviceInfo 6 0; EvTopology 6 false 0; EvAlloc 2 true;
                    EvTopology 6 true 0; EvFree; EvClosedir 4] |})
    as (fd & w2 & Hcall & Hne & _);
    [vm_compute; reflexivity | constructor |].
  exists fd, w2. split; [exact Hcall|exact Hne].
Defined.

(** X11.  With a directory that holds no entry named "media...", an empty
    one included, the resolver opens nothing: it answers AVERROR(EINVAL),
    leaves the caller's record alone, and returns with the descriptor
    table it found. *)
Theorem retrieve_media_without_media_entries `{Platform} (os : OS)
  video_device media_device w nd s entries :
  fd_node os (video_fd video_device) w = Some nd →
  nd_stat nd = inr s →
  os_dev os = inr entries →
  Forall (λ d, String.prefix "media" d = false) entries →
  ∃ w',
    ff_v4l2_device_retrieve_media os video_device media_device w =
      (AVERROR (Z.pos EINVAL), media_device, w') ∧
    w_fds w' = w_fds w.
Proof.
  intros Hnode Hstat Hdev Hall.
  assert (Forall (λ d, media_candidate os d = NotMedia) entries) as Hnot.
  { eapply Forall_impl; [exact Hall|]. intros d Hd. unfold media_candidate.
    destruct (strncmp d "media" 5 =? 0) eqn:Hcmp; [|done].
    apply Z.eqb_eq, media_entry_prefix in Hcmp. congruence. }
  unfold ff_v4l2_device_retrieve_media, sys_fstat.
  rewrite Hnode, Hstat. simpl.
  rewrite (sys_opendir_succeeded os _ _ Hdev). cbn [dd_entries].
  match goal with
  | |- context [retrieve_media_loop os s _ ?l0 ?w0] =>
      destruct (retrieve_media_loop_no_media os s entries l0 w0 Hnot)
        as (w2 & -> & Hfds)
  end.
  cbn [ml_ret]. rewrite AVERROR_ltb_0.
  eexists. split; [reflexivity|]. unfold sys_closedir. simpl.
  rewrite Hfds.
  exact (enumeration_fds_closed (emit (EvFstat (video_fd video_device) 0) w)).
Qed.

Lemma retrieve_media_without_media_entries_witness :
  ∃ w',
    ff_v4l2_device_retrieve_media (Example.dev (inr ["video0"; "medi"]))
      Example.video0 Example.stale_media (Example.holding_video0 [])
    = (-22, Example.stale_media, w') ∧
    w_fds w' = <[3%N := "/dev/video0"]> Example.stdio.
Proof.
  refine (retrieve_media_without_media_entries
            (Example.dev (inr ["video0"; "medi"]))
            Example.video0 Example.stale_media (Example.holding_video0 [])
            (Example.video_node 81 0)
            {| st_dev := 6; st_rdev := gnu_dev_makedev 81 0 |}
            ["video0"; "medi"] _ _ _ _);
    [vm_compute; reflexivity | reflexivity | reflexivity
    | repeat constructor].
Defined.

(** ** The prober and the resolver, one after the other *)

Lemma first_accepted_app `{Platform} (os : OS) checkdev m pre c post h :
  Forall (λ d, accepted os checkdev m d = false) pre →
  probe_candidate os m c = VideoOpened h →
  checkdev h = true →
  first_accepted os checkdev m (pre ++ c :: post) = Some h.
Proof.
  intros Hpre Hcand Hyes. induction Hpre as [|d pre Hd _ IH]; simpl.
  - by rewrite Hcand, Hyes.
  - unfold accepted in Hd.
    destruct (probe_candidate os m d) as [| | |h']; try done.
    by rewrite Hd.
Qed.

(** What a prober call that answers 0 has done. *)
Lemma probe_video_success `{Platform} (os : OS) checkdev device w h w1 :
  ff_v4l2_device_probe_video os device checkdev w = (0, h, w1) →
  ∃ entries d_name fd,
    os_dev os = inr entries ∧ d_name ∈ entries ∧
    probe_candidate os (enumeration_fds w) d_name = VideoOpened h ∧
    checkdev h = true ∧
    video_fd h = Z.of_N fd ∧
    w_fds w !! fd = None ∧
    w_fds w1 = <[fd := video_devname h]> (w_fds w) ∧
    w_alloc w1 = w_alloc w ∧
    first_accepted os checkdev (enumeration_fds w) entries = Some h.
Proof.
  intros Hcall. destruct (os_dev os) as [e|entries] eqn:Hdev.
  { rewrite (probe_video_unreadable os checkdev device w e Hdev) in Hcall.
    injection Hcall as Hz _ _. pose proof (AVERROR_neg e). lia. }
  destruct (entries_split os checkdev (enumeration_fds w) entries)
    as [Hall|(pre & c & post & h' & -> & Hpre & Hcand & Hyes)].
  - destruct (probe_video_exhausted os checkdev device w entries Hdev Hall)
      as (w' & Heq & _).
    rewrite Heq in Hcall. injection Hcall as Hz _ _.
    pose proof (probe_failure_negative os (enumeration_fds w) entries
                  (AVERROR (Z.pos EINVAL)) (AVERROR_neg _)). lia.
  - destruct (probe_video_found os checkdev device w pre c post h'
                Hdev Hpre Hcand Hyes) as (w' & Heq & Hfds & Halloc & _).
    rewrite Heq in Hcall. injection Hcall as -> ->.
    destruct (probe_candidate_opened os _ _ _ Hcand) as (_ & Hh & _).
    exists (pre ++ c :: post), c, (lowest_fd (enumeration_fds w)).
    split; [done|]. split; [apply elem_of_app; right; by left|].
    split; [done|]. split; [done|]. split; [by rewrite Hh|].
    split; [apply candidate_fd_fresh|]. split; [done|]. split; [done|].
    by apply first_accepted_app.
Qed.

(** X12.  A prober call that answers 0 hands back a record the predicate
    accepted, and it is the record of the first candidate of the directory
    that would be accepted: it comes from a directory entry whose name
    starts with "video", its descriptor was not open before the call and
    is the only change to the descriptor table, and its capability record
    is the one the node under its path delivers. *)
Theorem probe_video_result_was_accepted `{Platform} (os : OS) checkdev
  device w h w1 :
  ff_v4l2_device_probe_video os device checkdev w = (0, h, w1) →
  checkdev h = true ∧
  nd_querycap (os_node os (video_devname h)) = inr (video_capability h) ∧
  ∃ entries d_name fd,
    os_dev os = inr entries ∧ d_name ∈ entries ∧
    String.prefix "video" d_name = true ∧
    video_devname h = snprintf_dev PATH_MAX d_name ∧
    video_fd h = Z.of_N fd ∧
    w_fds w !! fd = None ∧
    w_fds w1 = <[fd := video_devname h]> (w_fds w) ∧
    first_accepted os checkdev (enumeration_fds w) entries = Some h.
Proof.
  intros Hcall.
  apply probe_video_success in Hcall
    as (entries & d & fd & Hdev & Hin & Hcand & Hyes & Hfd & Hfresh & Hfds & _
        & Hfirst).
  destruct (probe_candidate_opened os _ _ _ Hcand)
    as (Hcmp & Hh & _ & Hquery).
  assert (video_devname h = snprintf_dev PATH_MAX d) as Hname
    by (by rewrite Hh).
  split; [done|]. split; [by rewrite Hname|].
  exists entries, d, fd. apply video_entry_prefix in Hcmp. done.
Qed.

Lemma probe_video_result_was_accepted_witness :
  Example.wants_video1
    {| video_devname := "/dev/video1"; video_fd := 4;
       video_capability := Example.uvc |} = true ∧
  nd_querycap (Example.nodes "/dev/video1") = inr Example.uvc.
Proof.
  destruct (probe_video_result_was_accepted
              (Example.dev (inr ["video0"; "video1"])) Example.wants_video1
              Example.stale_video (Example.start [])
              {| video_devname := "/dev/video1"; video_fd := 4;
                 video_capability := Example.uvc |}
              {| w_fds := <[4%N := "/dev/video1"]> Example.stdio;
                 w_errno := 0; w_alloc := [];
                 w_trace :=
                   [EvOpendir (Some 3%N);
                    EvReaddir (Some "video0"); EvOpen "/dev/video0" true 4;
                    EvQuerycap 4 0; EvClose 4 0;
                    EvReaddir (Some "video1"); EvOpen "/dev/video1" true 4;
                    EvQuerycap 4 0; EvClosedir 3] |})
    as (Hyes & Hquery & _); [vm_compute; reflexivity|].
  split; [exact Hyes|exact Hquery].
Defined.

(** X13.  The record a successful prober call hands back can be given to
    the resolver as it is: the identity query finds the probed node behind
    its descriptor, and, when that node answers [fstat], the directory
    holds a media controller of it and no allocation fails, the resolver
    answers 0 with the first such controller, on a descriptor different
    from the one of the video device, which stays open. *)
Theorem probe_then_retrieve_pairs_devices `{Platform} (os : OS) checkdev
  device media_device w h w1 s entries path info :
  ff_v4l2_device_probe_video os device checkdev w = (0, h, w1) →
  nd_stat (os_node os (video_devname h)) = inr s →
  os_dev os = inr entries →
  Forall (λ b, b = true) (w_alloc w) →
  first_controller os (major (st_rdev s)) (minor (st_rdev s)) entries
    = Some (path, info) →
  ∃ fd w2,
    ff_v4l2_device_retrieve_media os h media_device w1 =
      (0, {| media_devname := path; media_fd := Z.of_N fd;
             media_info := info |}, w2) ∧
    Z.of_N fd ≠ video_fd h ∧
    fd_node os (video_fd h) w2 = Some (os_node os (video_devname h)) ∧
    fd_node os (Z.of_N fd) w2 = Some (os_node os path).
Proof.
  intros Hprobe Hstat Hdev Halloc Hfirst.
  apply probe_video_success in Hprobe
    as (_ & _ & fdv & _ & _ & _ & _ & Hfdv & _ & Hfds1 & Halloc1 & _).
  assert (fd_node os (video_fd h) w1 = Some (os_node os (video_devname h)))
    as Hnode.
  { by rewrite Hfdv, fd_node_of_N, Hfds1, lookup_insert_eq. }
  rewrite <- Halloc1 in Halloc.
  apply first_controller_split in Hfirst
    as (pre & c & post & -> & Hpre & Hc).
  destruct (retrieve_media_call_found os h media_device w1 _ s
              pre c post path info Hnode Hstat Hdev Hpre Hc Halloc)
    as (fd & w2 & Hcall & Hfresh & Hopen & Hsub & _).
  exists fd, w2. split; [done|]. split; [|split].
  - rewrite Hfdv. intros Hsame. apply N2Z.inj in Hsame. subst fd.
    by rewrite Hfds1, lookup_insert_eq in Hfresh.
  - by apply (fd_node_weaken os _ _ _ _ Hsub).
  - by rewrite fd_node_of_N, Hopen.
Qed.

Lemma probe_then_retrieve_pairs_devices_witness :
  ∃ fd w2,
    ff_v4l2_device_retrieve_media
      (Example.dev (inr ["media0"; "video1"; "video0"; "media1"]))
      {| video_devname := "/dev/video0"; video_fd := 4;
         video_capability := Example.uvc |}
      Example.stale_media
      {| w_fds := <[4%N := "/dev/video0"]> Example.stdio;
         w_errno := 0; w_alloc := [];
         w_trace :=
           [EvOpendir (Some 3%N); EvReaddir (Some "media0");
            EvReaddir (Some "video1"); EvOpen "/dev/video1" true 4;
            EvQuerycap 4 0; EvClose 4 0;
            EvReaddir (Some "video0"); EvOpen "/dev/video0" true 4;
            EvQuerycap 4 0; EvClosedir 3] |}
    = (0, {| media_devname := "/dev/media1"; media_fd := Z.of_N fd;
             media_info := Example.controller |}, w2) ∧
    Z.of_N fd ≠ 4.
Proof.
  destruct (probe_then_retrieve_pairs_devices
              (Example.dev (inr ["media0"; "video1"; "video0"; "media1"]))
              (λ d, bool_decide (video_devname d = "/dev/video0"))
              Example.stale_video Example.stale_media (Example.start [])
              {| video_devname := "/dev/video0"; video_fd := 4;
                 video_capability := Example.uvc |}
              {| w_fds := <[4%N := "/dev/video0"]> Example.stdio;
                 w_errno := 0; w_alloc := [];
                 w_trace :=
                   [EvOpendir (Some 3%N); EvReaddir (Some "media0");
                    EvReaddir (Some "video1"); EvOpen "/dev/video1" true 4;
                    EvQuerycap 4 0; EvClose 4 0;
                    EvReaddir (Some "video0"); EvOpen "/dev/video0" true 4;
                    EvQuerycap 4 0; EvClosedir 3] |}
              {| st_dev := 6; st_rdev := gnu_dev_makedev 81 0 |}
              ["media0"; "video1"; "video0"; "media1"]
              "/dev/media1" Example.controller)
    as (fd & w2 & Hcall & Hne & _);
    [vm_compute; reflexivity | reflexivity | reflexivity | constructor
    | vm_compute; reflexivity |].
  exists fd, w2. split; [exact Hcall|exact Hne].
Defined.

(** ** A failing candidate, seen from the caller *)

Lemma first_accepted_none `{Platform} (os : OS) checkdev m entries :
  first_accepted os checkdev m entries = None →
  Forall (λ d, accepted os checkdev m d = false) entries.
Proof.
  induction entries as [|d rest IH]; simpl; [done|].
  destruct (probe_candidate os m d) as [|e|e|h] eqn:Hcand;
    [| | |destruct (checkdev h) eqn:Hyes; [done|]];
    intros Hrest; (constructor; [unfold accepted; by rewrite Hcand|auto]).
Qed.

Lemma default_last_omap_app {A B} (f : A → option B) pre x post r a :
  f x = Some a →
  default r (last (omap f (pre ++ x :: post))) =
  default a (last (omap f post)).
Proof.
  intros Hf. rewrite omap_app, last_app. simpl. rewrite Hf.
  rewrite last_cons. by destruct (last _).
Qed.

Lemma failed_video_candidate `{Platform} (os : OS) checkdev m d_name e :
  probe_candidate os m d_name = VideoOpenFailed e ∨
  probe_candidate os m d_name = VideoQueryFailed e →
  accepted os checkdev m d_name = false ∧
  probe_failure os m d_name = Some (AVERROR (Z.pos e)).
Proof. unfold accepted, probe_failure. by intros [-> | ->]. Qed.

Lemma failed_media_candidate `{Platform} (os : OS) vmaj vmin d_name e :
  media_candidate os d_name = MediaOpenFailed e ∨
  media_candidate os d_name = MediaQueryFailed e →
  controller_of os vmaj vmin d_name = None.
Proof. unfold controller_of. by intros [-> | ->]. Qed.

(** C8.  A candidate whose [open] fails, or whose capability or info query
    fails, does not end the call it is tried in, for the prober and for
    the resolver alike.  The entries that follow it in the directory are
    read and tried as if it had not been there: when one of them is a
    candidate the call would accept, the call answers 0 with the first
    such entry; when none is, the call reads the directory to its end and
    only then fails.  For the prober the code is then the error of the
    failed candidate if no "video..." entry follows it, and the code left
    by the last such entry otherwise.  ("Accept" is, for the prober, the
    predicate saying yes to a candidate that opened and answered the
    query; for the resolver, the topology check answering 0 when no
    allocation fails.) *)
Theorem candidate_failure_is_soft `{Platform} (os : OS) checkdev
  pre d_name post e :
  os_dev os = inr (pre ++ d_name :: post) →
  (∀ device w,
     Forall (λ d, accepted os checkdev (enumeration_fds w) d = false) pre →
     probe_candidate os (enumeration_fds w) d_name = VideoOpenFailed e ∨
     probe_candidate os (enumeration_fds w) d_name = VideoQueryFailed e →
     (∀ h,
        first_accepted os checkdev (enumeration_fds w) post = Some h →
        ∃ w' pre' c post',
          ff_v4l2_device_probe_video os device checkdev w = (0, h, w') ∧
          post = pre' ++ c :: post' ∧
          video_devname h = snprintf_dev PATH_MAX c ∧
          readdir_entries (w_trace w') =
            readdir_entries (w_trace w) ++
              (Some <$> pre ++ d_name :: pre') ++ [Some c]) ∧
     (first_accepted os checkdev (enumeration_fds w) post = None →
      ∃ w',
        ff_v4l2_device_probe_video os device checkdev w =
          (default (AVERROR (Z.pos e))
             (last (omap (probe_failure os (enumeration_fds w)) post)),
           device, w') ∧
        readdir_entries (w_trace w') =
          readdir_entries (w_trace w) ++
            (Some <$> pre ++ d_name :: post) ++ [None])) ∧
  (∀ video_device media_device w nd s,
     fd_node os (video_fd video_device) w = Some nd →
     nd_stat nd = inr s →
     Forall (λ d, controller_of os (major (st_rdev s)) (minor (st_rdev s)) d
                  = None) pre →
     media_candidate os d_name = MediaOpenFailed e ∨
     media_candidate os d_name = MediaQueryFailed e →
     (∀ path info,
        Forall (λ b, b = true) (w_alloc w) →
        first_controller os (major (st_rdev s)) (minor (st_rdev s)) post
          = Some (path, info) →
        ∃ fd w' pre' c post',
          ff_v4l2_device_retrieve_media os video_device media_device w =
            (0, {| media_devname := path; media_fd := Z.of_N fd;
                   media_info := info |}, w') ∧
          post = pre' ++ c :: post' ∧
          path = snprintf_dev PATH_MAX c ∧
          readdir_entries (w_trace w') =
            readdir_entries (w_trace w) ++
              (Some <$> pre ++ d_name :: pre') ++ [Some c]) ∧
     (first_controller os (major (st_rdev s)) (minor (st_rdev s)) post = None →
      ∃ r w',
        ff_v4l2_device_retrieve_media os video_device media_device w =
          (r, media_device, w') ∧
        r < 0 ∧
        readdir_entries (w_trace w') =
          readdir_entries (w_trace w) ++
            (Some <$> pre ++ d_name :: post) ++ [None])).
Proof.
  intros Hdev. split.
  - intros device w Hpre Hfail.
    destruct (failed_video_candidate os checkdev _ _ _ Hfail) as [Hno Hcode].
    split.
    + intros h Hfirst.
      apply first_accepted_split in Hfirst
        as (pre' & c & post' & -> & Hpre' & Hcand & Hyes).
      assert (Forall (λ d, accepted os checkdev (enumeration_fds w) d = false)
                (pre ++ d_name :: pre')) as Hbefore.
      { apply Forall_app. split; [done|]. by constructor. }
      assert (os_dev os = inr ((pre ++ d_name :: pre') ++ c :: post'))
        as Hdev' by (by rewrite <- app_assoc).
      destruct (probe_video_found os checkdev device w _ c post' h
                  Hdev' Hbefore Hcand Hyes) as (w' & Hcall & _ & _ & Hrd & _).
      destruct (probe_candidate_opened os _ _ _ Hcand) as (_ & Hh & _).
      exists w', pre', c, post'. split; [done|]. split; [done|].
      split; [by rewrite Hh|done].
    + intros Hnone. apply first_accepted_none in Hnone.
      assert (Forall (λ d, accepted os checkdev (enumeration_fds w) d = false)
                (pre ++ d_name :: post)) as Hall.
      { apply Forall_app. split; [done|]. by constructor. }
      destruct (probe_video_exhausted os checkdev device w _ Hdev Hall)
        as (w' & Hcall & _ & _ & Hrd & _).
      exists w'. split; [|done]. rewrite Hcall. do 2 f_equal.
      by apply default_last_omap_app.
  - intros video_device media_device w nd s Hnode Hstat Hpre Hfail.
    pose proof (failed_media_candidate os (major (st_rdev s))
                  (minor (st_rdev s)) _ _ Hfail) as Hno.
    split.
    + intros path info Halloc Hfirst.
      apply first_controller_split in Hfirst
        as (pre' & c & post' & -> & Hpre' & Hc).
      assert (Forall (λ d, controller_of os (major (st_rdev s))
                             (minor (st_rdev s)) d = None)
                (pre ++ d_name :: pre')) as Hbefore.
      { apply Forall_app. split; [done|]. by constructor. }
      assert (os_dev os = inr ((pre ++ d_name :: pre') ++ c :: post'))
        as Hdev' by (by rewrite <- app_assoc).
      destruct (retrieve_media_call_found os video_device media_device w nd s
                  _ c post' path info Hnode Hstat Hdev' Hbefore Hc Halloc)
        as (fd & w' & Hcall & _ & _ & _ & _ & Hrd).
      apply controller_of_Some in Hc as (_ & Hpath & _).
      by exists fd, w', pre', c, post'.
    + intros Hnone. apply first_controller_none in Hnone.
      apply (retrieve_media_call_none os video_device media_device w nd s);
        try done.
      apply Forall_app. split; [done|]. by constructor.
Qed.

Lemma candidate_failure_is_soft_witness :
  (∃ w',
     ff_v4l2_device_probe_video
       (Example.dev (inr ["video0"; "videoX"; "null"; "video1"; "video2"]))
       Example.stale_video Example.wants_video1 (Example.start [])
     = (0, {| video_devname := "/dev/video1"; video_fd := 4;
              video_capability := Example.uvc |}, w') ∧
     readdir_entries (w_trace w') =
       [Some "video0"; Some "videoX"; Some "null"; Some "video1"]) ∧
  (∃ fd w',
     ff_v4l2_device_retrieve_media
       (Example.dev (inr ["media0"; "mediaX"; "video0"; "media1"; "media2"]))
       Example.video0 Example.stale_media (Example.holding_video0 [])
     = (0, {| media_devname := "/dev/media1"; media_fd := Z.of_N fd;
              media_info := Example.controller |}, w') ∧
     readdir_entries (w_trace w') =
       [Some "media0"; Some "mediaX"; Some "video0"; Some "media1"]).
Proof.
  split.
  - destruct (proj1 (candidate_failure_is_soft
                (Example.dev (inr ["video0"; "videoX"; "null"; "video1";
                                   "video2"]))
                Example.wants_video1 ["video0"] "videoX"
                ["null"; "video1"; "video2"] Example.ENOENT eq_refl)
                Example.stale_video (Example.start [])) as [Hsome _];
      [repeat constructor | left; vm_compute; reflexivity |].
    destruct (Hsome {| video_devname := "/dev/video1"; video_fd := 4;
                       video_capability := Example.uvc |})
      as (w' & pre' & c & post' & Hcall & _);
      [vm_compute; reflexivity|].
    exists w'. split; [exact Hcall|].
    vm_compute in Hcall. injection Hcall as <-. vm_compute. reflexivity.
  - destruct (proj2 (candidate_failure_is_soft
                (Example.dev (inr ["media0"; "mediaX"; "video0"; "media1";
                                   "media2"]))
                Example.wants_video1 ["media0"] "mediaX"
                ["video0"; "media1"; "media2"] Example.ENOENT eq_refl)
                Example.video0 Example.stale_media
                (Example.holding_video0 []) (Example.video_node 81 0)
                {| st_dev := 6; st_rdev := gnu_dev_makedev 81 0 |})
      as [Hsome _];
      [vm_compute; reflexivity | reflexivity
      | repeat constructor; vm_compute; reflexivity
      | left; vm_compute; reflexivity |].
    destruct (Hsome "/dev/media1" Example.controller)
      as (fd & w' & pre' & c & post' & Hcall & _);
      [constructor | vm_compute; reflexivity |].
    exists fd, w'. split; [exact Hcall|].
    vm_compute in Hcall. injection Hcall as _ <-. vm_compute. reflexivity.
Defined.
